(** * Mini-Agent-Engine: a shallow embedding of [main.py]

    The development follows the layout of the Python module:

    - [Py]      : the fragment of Python values, dictionaries, strings and
                  exceptions that the engine and the fixture steps touch;
    - [Model]   : the pydantic models ([WorkflowState], [GraphDefinition],
                  [WorkflowRun]) with the two validators of [GraphDefinition];
    - [Engine]  : [WorkflowEngine.execute_node] and [WorkflowEngine.run_workflow];
    - [Nodes]   : the five registered fixture steps;
    - [Api]     : [run_workflow_background], the preloaded graph of [lifespan]
                  and the [run_graph] endpoint.

    Mutation is modelled by explicit state passing: a step receives the
    [data] dictionary and gives back the dictionary as it stands when the
    step returns or raises; [execute_node] and [run_workflow] give back the
    [WorkflowState] as it stands when they return or raise. An exception
    is either an [Exception], which the [except Exception] clauses of
    [execute_node] and [run_workflow_background] catch, or a
    [BaseException] outside [Exception], which passes through both. *)

From Stdlib Require Import String Ascii List ZArith Lia Bool DecimalString.
#[local] Set Warnings "-register-all".
Import ListNotations.
Open Scope string_scope.

(* ================================================================= *)
(** ** Python values *)

Module Py.

(** JSON-shaped Python values. Floats are outside the model; a string is
    a sequence of code points below 256, one per [ascii]. *)
Inductive value : Type :=
| VNone
| VBool (b : bool)
| VInt (z : Z)
| VStr (s : string)
| VList (l : list value)
| VDict (d : list (string * value)).

(** A [dict] with string keys, kept in insertion order as CPython does. *)
Definition dict (V : Type) : Type := list (string * V).

Section Dict.
Context {V : Type}.

(** [d.get(k)] / [d[k]] : the value stored under [k], if any. *)
Fixpoint get (k : string) (d : dict V) : option V :=
  match d with
  | [] => None
  | (k', v) :: d' => if k' =? k then Some v else get k d'
  end.

(** [k in d] *)
Definition mem (k : string) (d : dict V) : bool :=
  match get k d with Some _ => true | None => false end.

(** [d[k] = v] : overwrite in place, or insert at the end. *)
Fixpoint set (k : string) (v : V) (d : dict V) : dict V :=
  match d with
  | [] => [(k, v)]
  | (k', v') :: d' => if k' =? k then (k', v) :: d' else (k', v') :: set k v d'
  end.

(** [d.get(k, default)] *)
Definition get_default (k : string) (default : V) (d : dict V) : V :=
  match get k d with Some v => v | None => default end.
End Dict.

(** [x in l] for a list (or a set) of strings. *)
Definition contains (x : string) (l : list string) : bool :=
  existsb (String.eqb x) l.

(** Exceptions (subclasses of [Exception]) by class and arguments. *)
Inductive exn : Type :=
| ValueError (msg : string)
| KeyError (key : string)
| TypeError (msg : string)
| AttributeError (msg : string)
| OtherException (class_name : string) (msg : string).

(** Exceptions that derive from [BaseException] without deriving from
    [Exception] ([SystemExit], [KeyboardInterrupt], [asyncio.CancelledError],
    [GeneratorExit]): no [except Exception] clause catches them. *)
Inductive base_exn : Type :=
| BaseException (class_name : string) (msg : string).

(** [type(v).__name__] *)
Definition type_name (v : value) : string :=
  match v with
  | VNone => "NoneType"
  | VBool _ => "bool"
  | VInt _ => "int"
  | VStr _ => "str"
  | VList _ => "list"
  | VDict _ => "dict"
  end.

(** [bool(v)] *)
Definition truthy (v : value) : bool :=
  match v with
  | VNone => false
  | VBool b => b
  | VInt z => negb (z =? 0)%Z
  | VStr s => negb (s =? EmptyString)
  | VList l => match l with [] => false | _ => true end
  | VDict d => match d with [] => false | _ => true end
  end.

(** [str(z)] for an [int]. *)
Definition str_of_Z (z : Z) : string := NilZero.string_of_int (Z.to_int z).

Definition quote1 : ascii := "'"%char.
Definition quote2 : ascii := ascii_of_nat 34.
Definition backslash : ascii := "\"%char.

Fixpoint has_char (c : ascii) (s : string) : bool :=
  match s with
  | EmptyString => false
  | String a s' => if Ascii.eqb a c then true else has_char c s'
  end.

Definition hex_digit (n : nat) : ascii :=
  if (n <? 10)%nat then ascii_of_nat (48 + n) else ascii_of_nat (87 + n).

(** One character of [repr(s)] with [q] the surrounding quote. The code
    points below 256 that [str.isprintable] refuses are the controls
    0-31 and 127-159, the no-break space 160 and the soft hyphen 173. *)
Definition repr_char (q : ascii) (c : ascii) : string :=
  let n := nat_of_ascii c in
  if Ascii.eqb c q || Ascii.eqb c backslash then String backslash (String c EmptyString)
  else if (n =? 9)%nat then "\t"
  else if (n =? 10)%nat then "\n"
  else if (n =? 13)%nat then "\r"
  else if (n <? 32)%nat || ((127 <=? n)%nat && (n <=? 160)%nat) || (n =? 173)%nat then
    String backslash (String "x" (String (hex_digit (n / 16)) (String (hex_digit (n mod 16)) EmptyString)))
  else String c EmptyString.

Fixpoint repr_chars (q : ascii) (s : string) : string :=
  match s with
  | EmptyString => EmptyString
  | String c s' => repr_char q c ++ repr_chars q s'
  end.

(** [repr(s)] for a [str]: single quotes unless the text has a single
    quote and no double quote. *)
Definition repr_str (s : string) : string :=
  let q := if has_char quote1 s && negb (has_char quote2 s) then quote2 else quote1 in
  String q (repr_chars q s ++ String q EmptyString).

(** [sep.join(l)] *)
Fixpoint join (sep : string) (l : list string) : string :=
  match l with
  | [] => EmptyString
  | [x] => x
  | x :: l' => x ++ sep ++ join sep l'
  end.

(** [repr(v)] *)
Fixpoint repr (v : value) : string :=
  match v with
  | VNone => "None"
  | VBool b => if b then "True" else "False"
  | VInt z => str_of_Z z
  | VStr s => repr_str s
  | VList l => "[" ++ join ", " (map repr l) ++ "]"
  | VDict d => "{" ++ join ", " (map (fun kv => repr_str (fst kv) ++ ": " ++ repr (snd kv)) d) ++ "}"
  end.

(** [str(v)], also what an f-string field [{v}] renders. *)
Definition str (v : value) : string :=
  match v with
  | VStr s => s
  | _ => repr v
  end.

(** [str(e)] for an exception; a [KeyError] shows the [repr] of its key. *)
Definition exn_str (e : exn) : string :=
  match e with
  | ValueError msg => msg
  | KeyError key => repr_str key
  | TypeError msg => msg
  | AttributeError msg => msg
  | OtherException _ msg => msg
  end.

(** [s.split(sep)] for a one-character separator. *)
Fixpoint split (sep : ascii) (s : string) : list string :=
  match s with
  | EmptyString => [EmptyString]
  | String c s' =>
      if Ascii.eqb c sep then EmptyString :: split sep s'
      else match split sep s' with
           | [] => [String c EmptyString]
           | x :: xs => String c x :: xs
           end
  end.

(** [sub in s] for strings. *)
Fixpoint substring_of (sub : string) (s : string) : bool :=
  if prefix sub s then true
  else match s with
       | EmptyString => false
       | String _ s' => substring_of sub s'
       end.

Definition newline : ascii := ascii_of_nat 10.

(** [len(v)] for the values that have a length; for a string, the number
    of its code points. *)
Definition len (v : value) : option Z :=
  match v with
  | VStr s => Some (Z.of_nat (String.length s))
  | VList l => Some (Z.of_nat (List.length l))
  | VDict d => Some (Z.of_nat (List.length d))
  | _ => None
  end.

(** The integer a value stands for in arithmetic and comparisons
    ([bool] is a subclass of [int]). *)
Definition as_int (v : value) : option Z :=
  match v with
  | VInt z => Some z
  | VBool b => Some (if b then 1 else 0)%Z
  | _ => None
  end.

End Py.

(* ================================================================= *)
(** ** The pydantic models *)

Module Model.
Import Py.

Inductive WorkflowStatus : Type := PENDING | RUNNING | COMPLETED | FAILED.

(** The shared state that flows between nodes. *)
Record WorkflowState : Type := mkState {
  data : dict value;
  history : list string
}.

(** [state.history.append(entry)] *)
Definition history_append (state : WorkflowState) (entry : string) : WorkflowState :=
  {| data := data state; history := (history state ++ [entry])%list |}.

(** The in-place effect of a step on [state.data]. *)
Definition with_data (state : WorkflowState) (d : dict value) : WorkflowState :=
  {| data := d; history := history state |}.

(** [Union[str, Dict[str, Optional[str]]]] *)
Inductive edge_config : Type :=
| Unconditional (target : string)
| Conditional (targets : dict (option string)).

Record GraphDefinition : Type := mkGraph {
  nodes : list string;
  edges : dict edge_config;
  start_node : string
}.

(** [validate_start_node]: the message of the [ValueError], if raised. *)
Definition validate_start_node (v : string) (values_nodes : list string) : option string :=
  if negb (contains v values_nodes)
  then Some ("start_node '" ++ v ++ "' must be in nodes list")
  else None.

(** The inner loop of [validate_edges] over a conditional mapping. *)
Fixpoint validate_targets (nodes_set : list string) (target : dict (option string)) : option string :=
  match target with
  | [] => None
  | (_, dest) :: rest =>
      match dest with
      | Some d =>
          if negb (contains d nodes_set)
          then Some ("Edge target '" ++ d ++ "' not in nodes list")
          else validate_targets nodes_set rest
      | None => validate_targets nodes_set rest
      end
  end.

(** [validate_edges]: the message of the first [ValueError] raised while
    iterating [v.items()], if any. *)
Fixpoint validate_edges (v : dict edge_config) (values_nodes : list string) : option string :=
  match v with
  | [] => None
  | (source, target) :: rest =>
      if negb (contains source values_nodes)
      then Some ("Edge source '" ++ source ++ "' not in nodes list")
      else
        match target with
        | Unconditional t =>
            if negb (contains t values_nodes)
            then Some ("Edge target '" ++ t ++ "' not in nodes list")
            else validate_edges rest values_nodes
        | Conditional m =>
            match validate_targets values_nodes m with
            | Some msg => Some msg
            | None => validate_edges rest values_nodes
            end
        end
  end.

(** A pydantic [ValidationError]: one (field, message) per failed field,
    in field order. *)
Definition ValidationError : Type := list (string * string).

Definition field_error (field : string) (r : option string) : ValidationError :=
  match r with Some msg => [(field, msg)] | None => [] end.

(** [GraphDefinition(nodes=..., edges=..., start_node=...)]: fields are
    validated in declaration order and every failure is collected. *)
Definition GraphDefinition_init (nodes_ : list string) (edges_ : dict edge_config)
    (start_node_ : string) : ValidationError + GraphDefinition :=
  match (field_error "edges" (validate_edges edges_ nodes_)
         ++ field_error "start_node" (validate_start_node start_node_ nodes_))%list with
  | [] => inr (mkGraph nodes_ edges_ start_node_)
  | errors => inl errors
  end.

Record WorkflowRun : Type := mkRun {
  run_id : string;
  graph_id : string;
  status : WorkflowStatus;
  state : WorkflowState;
  current_node : option string;
  error : option string
}.

End Model.

(* ================================================================= *)
(** ** The engine *)

Module Engine.
Import Py Model.

(** What a call of a step leaves behind: the value it returned, the
    [Exception] it raised, or the [BaseException] outside [Exception]
    that it raised. *)
Inductive step_result : Type :=
| Returns (result : value)
| Raises (e : exn)
| Aborts (b : base_exn).

(** A registered step: called on [state.data], it may mutate the
    dictionary and then returns or raises. *)
Definition step : Type := dict value -> dict value * step_result.

Record WorkflowEngine : Type := mkEngine {
  registry : dict step;
  max_steps : Z
}.

(** [WorkflowEngine()] over the module-level [tool_registry]. *)
Definition WorkflowEngine_init (tool_registry : dict step) : WorkflowEngine :=
  {| registry := tool_registry; max_steps := 50 |}.

(** [register_tool] *)
Definition register_tool (self : WorkflowEngine) (name : string) (func : step) : WorkflowEngine :=
  {| registry := set name func (registry self); max_steps := max_steps self |}.

(** How a coroutine of the engine ends, with the state it leaves: it
    returns, an [Exception] propagates, or a [BaseException] outside
    [Exception] propagates. *)
Inductive result (A : Type) : Type :=
| Returned (a : A) (state : WorkflowState)
| Raised (e : exn) (state : WorkflowState)
| Aborted (b : base_exn) (state : WorkflowState).
Arguments Returned {A} a state.
Arguments Raised {A} e state.
Arguments Aborted {A} b state.

Definition final_state {A : Type} (r : result A) : WorkflowState :=
  match r with
  | Returned _ s => s
  | Raised _ s => s
  | Aborted _ s => s
  end.

(** [result if isinstance(result, str) else "next"] *)
Definition outcome_label (result : value) : string :=
  match result with
  | VStr s => s
  | _ => "next"
  end.

Definition execute_node (self : WorkflowEngine) (node_name : string)
    (state : WorkflowState) : result string :=
  match get node_name (registry self) with
  | None => Raised (ValueError ("Node '" ++ node_name ++ "' not found in registry.")) state
  | Some func =>
      let state := history_append state ("Executing: " ++ node_name) in
      match func (data state) with
      | (data', Returns result) => Returned (outcome_label result) (with_data state data')
      | (data', Raises e) =>
          Raised e (history_append (with_data state data')
                                   ("Error in " ++ node_name ++ ": " ++ exn_str e))
      | (data', Aborts b) => Aborted b (with_data state data')
      end
  end.

(** Truth value of [current_node] in [while current_node:]. *)
Definition node_truthy (current_node : option string) : bool :=
  match current_node with
  | None => false
  | Some s => negb (s =? EmptyString)
  end.

(** Truth value of [edge_config] in [if not edge_config:]. *)
Definition edge_truthy (edge_config : option Model.edge_config) : bool :=
  match edge_config with
  | None => false
  | Some (Unconditional t) => negb (t =? EmptyString)
  | Some (Conditional m) => match m with [] => false | _ => true end
  end.

(** [edge_config.get(outcome)] on a mapping to [Optional[str]]. *)
Definition get_target (outcome : string) (m : dict (option string)) : option string :=
  match get outcome m with
  | Some dest => dest
  | None => None
  end.

Definition max_steps_entry (self : WorkflowEngine) : string :=
  "Max steps (" ++ str_of_Z (max_steps self) ++ ") reached. Terminating.".

Definition warning_entry (outcome : string) : string :=
  "Warning: Outcome '" ++ outcome ++ "' not defined in edges for node. Ending workflow.".

Definition is_None {A : Type} (x : option A) : bool :=
  match x with None => true | Some _ => false end.

(** The [while] loop of [run_workflow]. [left] is [max_steps - steps] on
    entry of an iteration, so that [steps + 1 > max_steps] reads
    [left = 0]; [run_loop_steps] below restates the loop over the
    counter [steps] itself. *)
Fixpoint run_loop (self : WorkflowEngine) (graph : GraphDefinition) (left : nat)
    (current_node : option string) (state : WorkflowState) : result unit :=
  if negb (node_truthy current_node) then Returned tt state
  else
    match current_node, left with
    | None, _ => Returned tt state
    | Some _, O => Returned tt (history_append state (max_steps_entry self))
    | Some node, S left' =>
        match execute_node self node state with
        | Raised e state' => Raised e state'
        | Aborted b state' => Aborted b state'
        | Returned outcome state' =>
            let edge_config := get node (edges graph) in
            if negb (edge_truthy edge_config) then Returned tt state'
            else
              match edge_config with
              | None => Returned tt state'
              | Some (Unconditional target) =>
                  run_loop self graph left' (Some target) state'
              | Some (Conditional m) =>
                  let current_node := get_target outcome m in
                  if is_None current_node && negb (mem outcome m)
                  then Returned tt (history_append state' (warning_entry outcome))
                  else run_loop self graph left' current_node state'
              end
        end
    end.

Definition run_workflow (self : WorkflowEngine) (graph : GraphDefinition)
    (state : WorkflowState) : result unit :=
  match run_loop self graph (Z.to_nat (max_steps self)) (Some (start_node graph)) state with
  | Returned _ state' => Returned tt (history_append state' "Workflow Completed.")
  | Raised e state' => Raised e state'
  | Aborted b state' => Aborted b state'
  end.

(** Ghost instrumentation of the loop: next to the result of [run_loop],
    the (node, outcome) pair of every [execute_node] call that returned,
    in order. [run_loop_log_result] shows that the result is untouched. *)
Fixpoint run_loop_log (self : WorkflowEngine) (graph : GraphDefinition) (left : nat)
    (current_node : option string) (state : WorkflowState)
    : result unit * list (string * string) :=
  if negb (node_truthy current_node) then (Returned tt state, [])
  else
    match current_node, left with
    | None, _ => (Returned tt state, [])
    | Some _, O => (Returned tt (history_append state (max_steps_entry self)), [])
    | Some node, S left' =>
        match execute_node self node state with
        | Raised e state' => (Raised e state', [])
        | Aborted b state' => (Aborted b state', [])
        | Returned outcome state' =>
            let logged (r : result unit * list (string * string)) :=
              (fst r, (node, outcome) :: snd r) in
            let edge_config := get node (edges graph) in
            if negb (edge_truthy edge_config) then logged (Returned tt state', [])
            else
              match edge_config with
              | None => logged (Returned tt state', [])
              | Some (Unconditional target) =>
                  logged (run_loop_log self graph left' (Some target) state')
              | Some (Conditional m) =>
                  let current_node := get_target outcome m in
                  if is_None current_node && negb (mem outcome m)
                  then logged (Returned tt (history_append state' (warning_entry outcome)), [])
                  else logged (run_loop_log self graph left' current_node state')
              end
        end
    end.

(** The executions of a whole [run_workflow] call. *)
Definition executions (self : WorkflowEngine) (graph : GraphDefinition)
    (state : WorkflowState) : list (string * string) :=
  snd (run_loop_log self graph (Z.to_nat (max_steps self)) (Some (start_node graph)) state).

(** The loop entered with the counter at [steps]. *)
Definition loop_at (self : WorkflowEngine) (graph : GraphDefinition) (steps : Z)
    (current_node : option string) (state : WorkflowState) : result unit :=
  run_loop self graph (Z.to_nat (max_steps self - steps)) current_node state.

End Engine.

(* ================================================================= *)
(** ** The registered fixture steps *)

Module Nodes.
Import Py Model Engine.

(** Extract function definitions from code. *)
Definition node_extract_functions : step := fun state =>
  match get_default "code" (VStr EmptyString) state with
  | VStr code =>
      (set "functions"
           (VList (map VStr (filter (substring_of "def ") (split newline code)))) state,
       Returns VNone)
  | v => (state, Raises (AttributeError ("'" ++ type_name v ++ "' object has no attribute 'split'")))
  end.

(** Calculate complexity score based on number of functions. *)
Definition node_check_complexity : step := fun state =>
  let functions := get_default "functions" (VList []) state in
  match len functions with
  | Some n => (set "complexity_score" (VInt (n * 2)) state, Returns VNone)
  | None => (state, Raises (TypeError ("object of type '" ++ type_name functions ++ "' has no len()")))
  end.

(** Detect issues based on complexity. *)
Definition node_detect_issues : step := fun state =>
  let complexity := get_default "complexity_score" (VInt 0) state in
  match as_int complexity with
  | Some z =>
      (set "issues" (if (z >? 5)%Z then VList [VStr "Line 10: Too long"] else VList []) state,
       Returns VNone)
  | None =>
      (state, Raises (TypeError ("'>' not supported between instances of '"
                                 ++ type_name complexity ++ "' and 'int'")))
  end.

(** [v + n] for an [int] literal [n]. *)
Definition add_int (v : value) (n : Z) : exn + value :=
  match v with
  | VInt z => inr (VInt (z + n))
  | VBool b => inr (VInt ((if b then 1 else 0) + n))
  | VStr _ | VList _ =>
      inl (TypeError ("can only concatenate " ++ type_name v ++ " (not "
                      ++ String quote2 ("int" ++ String quote2 (") to " ++ type_name v))))
  | VNone | VDict _ =>
      inl (TypeError ("unsupported operand type(s) for +: '" ++ type_name v ++ "' and 'int'"))
  end.

(** Suggest improvements and update quality score. *)
Definition node_suggest_improvements : step := fun state =>
  if truthy (get_default "issues" VNone state) then
    let state := set "suggestions" (VStr "Refactor logic to reduce complexity") state in
    match add_int (get_default "quality_score" (VInt 0) state) 20 with
    | inr v => (set "quality_score" v state, Returns VNone)
    | inl e => (state, Raises e)
    end
  else
    let state := set "suggestions" (VStr "Code looks good!") state in
    (set "quality_score" (VInt 100) state, Returns VNone).

(** Quality gate that decides whether to pass or retry: ['pass'] if
    [quality_score >= 80], otherwise ['retry']. *)
Definition node_quality_gate : step := fun state =>
  let score := get_default "quality_score" (VInt 0) state in
  match get "history" state with
  | None => (state, Raises (KeyError "history"))
  | Some (VList l) =>
      let state := set "history" (VList (l ++ [VStr ("Quality Gate: score=" ++ str score)])) state in
      match as_int score with
      | Some z => (state, Returns (VStr (if (z >=? 80)%Z then "pass" else "retry")))
      | None =>
          (state, Raises (TypeError ("'>=' not supported between instances of '"
                                     ++ type_name score ++ "' and 'int'")))
      end
  | Some v =>
      (state, Raises (AttributeError ("'" ++ type_name v ++ "' object has no attribute 'append'")))
  end.

(** [engine = WorkflowEngine()] followed by the five [register_tool] calls. *)
Definition engine : WorkflowEngine :=
  let engine := WorkflowEngine_init [] in
  let engine := register_tool engine "extract_functions" node_extract_functions in
  let engine := register_tool engine "check_complexity" node_check_complexity in
  let engine := register_tool engine "detect_issues" node_detect_issues in
  let engine := register_tool engine "suggest_improvements" node_suggest_improvements in
  register_tool engine "quality_gate" node_quality_gate.

Definition tool_registry : dict step := registry engine.

End Nodes.

(* ================================================================= *)
(** ** Background execution and the HTTP boundary *)

Module Api.
Import Py Model Engine.

(** The body of [run_workflow_background] once [run = runs_db[run_id]] has
    been fetched: what the coroutine does to that [WorkflowRun] object.
    [except Exception] does not catch a [BaseException] outside
    [Exception]: the run then keeps the status [RUNNING] that the task
    gave it on entry, and [run_task_escape] is the exception that leaves
    the task. *)
Definition run_task (engine : WorkflowEngine) (graphs_db : dict GraphDefinition)
    (run : WorkflowRun) : WorkflowRun :=
  let failed (e : exn) (st : WorkflowState) :=
    {| run_id := run_id run; graph_id := graph_id run;
       status := FAILED;
       state := history_append st ("Workflow failed: " ++ exn_str e);
       current_node := current_node run;
       error := Some (exn_str e) |} in
  match get (graph_id run) graphs_db with
  | None => failed (KeyError (graph_id run)) (state run)
  | Some graph =>
      match run_workflow engine graph (state run) with
      | Returned _ st =>
          {| run_id := run_id run; graph_id := graph_id run;
             status := COMPLETED;
             state := st;
             current_node := current_node run;
             error := error run |}
      | Raised e st => failed e st
      | Aborted _ st =>
          {| run_id := run_id run; graph_id := graph_id run;
             status := RUNNING;
             state := st;
             current_node := current_node run;
             error := error run |}
      end
  end.

(** The exception that leaves the body of [run_workflow_background]
    uncaught, if any. *)
Definition run_task_escape (engine : WorkflowEngine) (graphs_db : dict GraphDefinition)
    (run : WorkflowRun) : option base_exn :=
  match get (graph_id run) graphs_db with
  | None => None
  | Some graph =>
      match run_workflow engine graph (state run) with
      | Aborted b _ => Some b
      | _ => None
      end
  end.

(** Background task to execute workflow: the run store as the task
    leaves it, or the [KeyError] of [runs_db[run_id]]. The store is the
    one left behind also when a [BaseException] outside [Exception]
    leaves the task ([run_task_escape]). *)
Definition run_workflow_background (engine : WorkflowEngine)
    (graphs_db : dict GraphDefinition) (runs_db : dict WorkflowRun)
    (run_id : string) : exn + dict WorkflowRun :=
  match get run_id runs_db with
  | None => inl (KeyError run_id)
  | Some run => inr (set run_id (run_task engine graphs_db run) runs_db)
  end.

Definition default_graph_id : string := "code-review-agent".

(** The [GraphDefinition(...)] call of [lifespan]. *)
Definition default_graph : ValidationError + GraphDefinition :=
  GraphDefinition_init
    ["extract_functions"; "check_complexity"; "detect_issues";
     "suggest_improvements"; "quality_gate"]
    [("extract_functions", Unconditional "check_complexity");
     ("check_complexity", Unconditional "detect_issues");
     ("detect_issues", Unconditional "suggest_improvements");
     ("suggest_improvements", Unconditional "quality_gate");
     ("quality_gate", Conditional [("retry", Some "detect_issues"); ("pass", None)])]
    "extract_functions".

(** Startup part of [lifespan]: preload the default graph. *)
Definition lifespan (graphs_db : dict GraphDefinition) : ValidationError + dict GraphDefinition :=
  match default_graph with
  | inr g => inr (set default_graph_id g graphs_db)
  | inl errors => inl errors
  end.

Module RunGraphRequest.
Record t : Type := mk { graph_id : string; initial_state : dict value }.
End RunGraphRequest.

Module RunGraphResponse.
Record t : Type := mk { run_id : string; status : string }.
End RunGraphResponse.

Module HTTPException.
Record t : Type := mk { status_code : Z; detail : string }.
End HTTPException.

(** The stores and the task queue that [run_graph] reads and writes. *)
Record stores : Type := mkStores {
  graphs_db : dict GraphDefinition;
  runs_db : dict WorkflowRun;
  tool_registry : dict step;
  background_tasks : list string
}.

(** [[node for node in graph.nodes if node not in tool_registry]] *)
Definition unregistered_nodes (graph : GraphDefinition) (tool_registry : dict step) : list string :=
  filter (fun node => negb (mem node tool_registry)) (nodes graph).

(** [POST /graph/run]. [uuid4] is the value drawn by [uuid.uuid4()];
    a scheduled task is recorded by the run id it was given. *)
Definition run_graph (a : stores) (uuid4 : string) (request : RunGraphRequest.t)
    : HTTPException.t + (RunGraphResponse.t * stores) :=
  let gid := RunGraphRequest.graph_id request in
  match get gid (graphs_db a) with
  | None => inl (HTTPException.mk 404 ("Graph '" ++ gid ++ "' not found"))
  | Some graph =>
      let unregistered := unregistered_nodes graph (tool_registry a) in
      match unregistered with
      | _ :: _ =>
          inl (HTTPException.mk 400
                 ("The following nodes are not registered: "
                  ++ repr (VList (map VStr unregistered))))
      | [] =>
          let run_id := uuid4 in
          let initial_workflow_state := mkState (RunGraphRequest.initial_state request) [] in
          let run := mkRun run_id gid PENDING initial_workflow_state None None in
          inr (RunGraphResponse.mk run_id "Submitted",
               mkStores (graphs_db a) (set run_id run (runs_db a)) (tool_registry a)
                     (background_tasks a ++ [run_id]))
      end
  end.

Module CreateGraphRequest.
Record t : Type := mk {
  nodes : list string;
  edges : dict edge_config;
  start_node : string
}.
End CreateGraphRequest.

Module CreateGraphResponse.
Record t : Type := mk { graph_id : string; message : string }.
End CreateGraphResponse.

(** [POST /graph/create]. [uuid4] is the value drawn by [uuid.uuid4()];
    [error_text] is pydantic's [str(e)] of a [ValidationError], the text
    that the handler puts in the 400 response. *)
Definition create_graph (error_text : ValidationError -> string) (a : stores)
    (uuid4 : string) (request : CreateGraphRequest.t)
    : HTTPException.t + (CreateGraphResponse.t * stores) :=
  let graph_id := uuid4 in
  match GraphDefinition_init (CreateGraphRequest.nodes request)
                             (CreateGraphRequest.edges request)
                             (CreateGraphRequest.start_node request) with
  | inr graph =>
      inr (CreateGraphResponse.mk graph_id "Graph created successfully",
           mkStores (set graph_id graph (graphs_db a)) (runs_db a) (tool_registry a)
                    (background_tasks a))
  | inl errors => inl (HTTPException.mk 400 (error_text errors))
  end.

(** [GET /graph/state/{run_id}] *)
Definition get_run_state (a : stores) (run_id : string) : HTTPException.t + WorkflowRun :=
  match get run_id (runs_db a) with
  | None => inl (HTTPException.mk 404 ("Run ID '" ++ run_id ++ "' not found"))
  | Some run => inr run
  end.

(** [GET /graphs] *)
Definition list_graphs (a : stores) : dict GraphDefinition := graphs_db a.

(** [GET /tools]: [list(tool_registry.keys())] *)
Definition list_tools (a : stores) : list string := map fst (tool_registry a).

(** [GET /]: the health check. *)
Definition root (a : stores) : dict value :=
  [("status", VStr "running");
   ("message", VStr "Mini Agent Workflow Engine");
   ("graphs_count", VInt (Z.of_nat (List.length (graphs_db a))));
   ("runs_count", VInt (Z.of_nat (List.length (runs_db a))));
   ("tools_count", VInt (Z.of_nat (List.length (tool_registry a))))].

End Api.

(* ================================================================= *)
(** ** Properties *)

Import Py Model Engine Nodes Api.

(** *** Predicates and inputs of the statements *)

(** [h'] is [h] followed by entries none of which is the final entry. *)
Definition extended (h h' : list string) : Prop :=
  exists added, h' = (h ++ added)%list /\ ~ In "Workflow Completed." added.

(** An edge destination that is not the terminal marker [None] and is not
    a member of [nodes]. *)
Definition dangling (nodes_ : list string) (target : edge_config) : Prop :=
  match target with
  | Unconditional t => ~ In t nodes_
  | Conditional m => exists outcome dest, In (outcome, Some dest) m /\ ~ In dest nodes_
  end.

(** A step that returns nothing and leaves [data] as it is. *)
Definition noop_step : step := fun d => (d, Returns VNone).

(** A fresh engine whose registry holds that step under ["a"]. *)
Definition noop_engine : WorkflowEngine := WorkflowEngine_init [("a", noop_step)].

(** Node ["a"] with a conditional edge that knows the outcome ["done"] only. *)
Definition graph_unknown_outcome : GraphDefinition :=
  mkGraph ["a"] [("a", Conditional [("done", None)])] "a".

(** Node ["a"] with an empty conditional mapping as edge. *)
Definition graph_empty_mapping : GraphDefinition :=
  mkGraph ["a"] [("a", Conditional [])] "a".

(** [next] is the node the loop moves to after [node] gave [outcome]. *)
Definition routes (graph : GraphDefinition) (node outcome next : string) : Prop :=
  match get node (edges graph) with
  | Some (Unconditional target) => target = next
  | Some (Conditional targets) => get outcome targets = Some (Some next)
  | None => False
  end.

(** Every node of the graph has a non-empty name and a registered step
    that never raises, and whatever the step returns, the edge of the node
    leads to a node of the graph: no edge is missing, no outcome is
    unknown and none meets the terminal marker. *)
Definition endless (self : WorkflowEngine) (graph : GraphDefinition) : Prop :=
  forall node, In node (nodes graph) ->
    node <> EmptyString
    /\ exists func,
         get node (registry self) = Some func
         /\ forall d, exists d' result next,
              func d = (d', Returns result)
              /\ routes graph node (outcome_label result) next
              /\ In next (nodes graph).

(** The [history] entries that the logged executions wrote. *)
Definition executing_entries (log : list (string * string)) : list string :=
  map (fun call => "Executing: " ++ fst call) log.

(** The graph of one node with an empty name that is its own
    unconditional successor, with a registered step that never raises. *)
Definition graph_empty_name : GraphDefinition :=
  mkGraph [EmptyString] [(EmptyString, Unconditional EmptyString)] EmptyString.

(** A fresh engine with a step registered under the empty name. *)
Definition engine_empty_name : WorkflowEngine :=
  WorkflowEngine_init [(EmptyString, noop_step)].

(** Two nodes that are each other's unconditional successor. *)
Definition graph_two_cycle : GraphDefinition :=
  mkGraph ["a"; "b"] [("a", Unconditional "b"); ("b", Unconditional "a")] "a".

(** A fresh engine with a step for each of the two nodes. *)
Definition engine_two_cycle : WorkflowEngine :=
  WorkflowEngine_init [("a", noop_step); ("b", noop_step)].

(** The graph that [lifespan] stores under ["code-review-agent"]. *)
Definition code_review_graph : GraphDefinition :=
  mkGraph
    ["extract_functions"; "check_complexity"; "detect_issues";
     "suggest_improvements"; "quality_gate"]
    [("extract_functions", Unconditional "check_complexity");
     ("check_complexity", Unconditional "detect_issues");
     ("detect_issues", Unconditional "suggest_improvements");
     ("suggest_improvements", Unconditional "quality_gate");
     ("quality_gate", Conditional [("retry", Some "detect_issues"); ("pass", None)])]
    "extract_functions".

(** A fresh process: [lifespan] has run, then one [POST /graph/run] for
    the preloaded graph is served with [uuid4] as the drawn id, then the
    scheduled background task runs; the result is the stored run. *)
Definition submit_and_run (uuid4 : string) (initial_state : dict value) : option WorkflowRun :=
  match lifespan [] with
  | inl _ => None
  | inr graphs =>
      match run_graph (mkStores graphs [] Nodes.tool_registry []) uuid4
                      (RunGraphRequest.mk default_graph_id initial_state) with
      | inl _ => None
      | inr (_, s) =>
          match background_tasks s with
          | [task] =>
              match run_workflow_background Nodes.engine (graphs_db s) (runs_db s) task with
              | inl _ => None
              | inr runs => get uuid4 runs
              end
          | _ => None
          end
      end
  end.

(** The lines of [code] that [extract_functions] collects. *)
Definition def_lines (code : string) : list string :=
  filter (substring_of "def ") (split newline code).

(** The [code] of the end-to-end scenario: three functions, six lines. *)
Definition three_defs : string :=
  "def a():
  pass
def b():
  pass
def c():
  pass".

(** The entries that a traversal may write after the last
    ["Executing: ..."] entry of a returned call, when the loop is left
    without an exception: none, the max-steps entry, or a warning. *)
Definition loop_exit_entries (self : WorkflowEngine) (entries : list string) : Prop :=
  entries = []
  \/ entries = [max_steps_entry self]
  \/ exists outcome, entries = [warning_entry outcome].

(** The entries that a traversal writes after the last ["Executing: ..."]
    entry of a returned call, when [e] is raised: none if [e] is the
    not-found error of an unregistered node, else the two entries of the
    node whose step raised [e]. *)
Definition loop_raise_entries (self : WorkflowEngine) (e : exn) (entries : list string) : Prop :=
  exists node,
    (get node (registry self) = None
     /\ e = ValueError ("Node '" ++ node ++ "' not found in registry.")
     /\ entries = [])
    \/ entries = ["Executing: " ++ node; "Error in " ++ node ++ ": " ++ exn_str e].

(** The entries that a traversal writes after the ["Executing: ..."]
    entries of the returned calls, by the way it ends; on a
    [BaseException] outside [Exception] it is the ["Executing: ..."] entry
    of the node whose step raised it, and nothing else. *)
Definition loop_entries (self : WorkflowEngine) (r : result unit) (entries : list string) : Prop :=
  match r with
  | Returned _ _ => loop_exit_entries self entries
  | Raised e _ => loop_raise_entries self e entries
  | Aborted _ _ => exists node, entries = ["Executing: " ++ node]
  end.

(** A step that leaves through [sys.exit(1)]. *)
Definition aborting_step : step :=
  fun d => (d, Aborts (BaseException "SystemExit" "1")).

(** The number of ["Executing: ..."] entries among [entries]:
    [execute_node] writes one before each call of a step. *)
Definition started_steps (entries : list string) : nat :=
  List.length (filter (prefix "Executing: ") entries).

(** A step that always raises. *)
Definition failing_step : step :=
  fun d => (d, Raises (OtherException "RuntimeError" "boom")).

(** Every outcome that the step of a node with a conditional edge can
    return is a key of that node's mapping. *)
Definition outcomes_handled (self : WorkflowEngine) (graph : GraphDefinition) : Prop :=
  forall node m func d d' result,
    get node (edges graph) = Some (Conditional m) ->
    get node (registry self) = Some func ->
    func d = (d', Returns result) ->
    mem (outcome_label result) m = true.

(** The three conditions under which [GraphDefinition] accepts its
    fields. *)
Definition well_formed (nodes_ : list string) (edges_ : dict edge_config)
    (start_node_ : string) : Prop :=
  In start_node_ nodes_
  /\ forall source target,
       In (source, target) edges_ -> In source nodes_ /\ ~ dangling nodes_ target.

(** A rendering of validation errors, standing for pydantic's [str(e)]. *)
Definition count_errors (errors : ValidationError) : string :=
  str_of_Z (Z.of_nat (List.length errors)) ++ " validation error(s)".

(** The ways in which the traversal of [run_workflow] is left: on a
    current node that is no node, on the step cap, on a node whose edge
    configuration is missing or empty, on an outcome that a conditional
    edge does not know, on an [Exception] propagated by [execute_node],
    or on a [BaseException] outside [Exception] propagated by it. *)
Inductive loop_exit : Type :=
| ExitTerminal
| ExitMaxSteps
| ExitNoEdge
| ExitUnknownOutcome (outcome : string)
| ExitFailure (e : exn)
| ExitAbort (b : base_exn).

(** The traversal as a state machine over the current node and the step
    counter: [traversal self graph steps node state x state1] reads "the
    loop entered with counter [steps] at [node] in [state] is left by
    [x] in [state1]". *)
Inductive traversal (self : WorkflowEngine) (graph : GraphDefinition)
  : Z -> option string -> WorkflowState -> loop_exit -> WorkflowState -> Prop :=
| T_terminal steps current_node state :
    node_truthy current_node = false ->
    traversal self graph steps current_node state ExitTerminal state
| T_max_steps steps node state :
    node <> EmptyString ->
    (steps + 1 > max_steps self)%Z ->
    traversal self graph steps (Some node) state ExitMaxSteps
              (history_append state (max_steps_entry self))
| T_failure steps node state e state' :
    node <> EmptyString ->
    (steps + 1 <= max_steps self)%Z ->
    execute_node self node state = Raised e state' ->
    traversal self graph steps (Some node) state (ExitFailure e) state'
| T_abort steps node state b state' :
    node <> EmptyString ->
    (steps + 1 <= max_steps self)%Z ->
    execute_node self node state = Aborted b state' ->
    traversal self graph steps (Some node) state (ExitAbort b) state'
| T_no_edge steps node state outcome state' :
    node <> EmptyString ->
    (steps + 1 <= max_steps self)%Z ->
    execute_node self node state = Returned outcome state' ->
    edge_truthy (get node (edges graph)) = false ->
    traversal self graph steps (Some node) state ExitNoEdge state'
| T_unknown_outcome steps node state outcome state' m :
    node <> EmptyString ->
    (steps + 1 <= max_steps self)%Z ->
    execute_node self node state = Returned outcome state' ->
    get node (edges graph) = Some (Conditional m) ->
    m <> [] ->
    get outcome m = None ->
    traversal self graph steps (Some node) state (ExitUnknownOutcome outcome)
              (history_append state' (warning_entry outcome))
| T_unconditional steps node state outcome state' target x state'' :
    node <> EmptyString ->
    (steps + 1 <= max_steps self)%Z ->
    execute_node self node state = Returned outcome state' ->
    get node (edges graph) = Some (Unconditional target) ->
    target <> EmptyString ->
    traversal self graph (steps + 1) (Some target) state' x state'' ->
    traversal self graph steps (Some node) state x state''
| T_conditional steps node state outcome state' m next x state'' :
    node <> EmptyString ->
    (steps + 1 <= max_steps self)%Z ->
    execute_node self node state = Returned outcome state' ->
    get node (edges graph) = Some (Conditional m) ->
    get outcome m = Some next ->
    traversal self graph (steps + 1) next state' x state'' ->
    traversal self graph steps (Some node) state x state''.

(** How the loop ends on each way of leaving it. *)
Definition exit_result (x : loop_exit) (state1 : WorkflowState) : result unit :=
  match x with
  | ExitFailure e => Raised e state1
  | ExitAbort b => Aborted b state1
  | ExitTerminal | ExitMaxSteps | ExitNoEdge | ExitUnknownOutcome _ => Returned tt state1
  end.

(** *** Dictionaries and membership *)

Lemma contains_In (x : string) (l : list string) :
  contains x l = true <-> In x l.
Proof.
  unfold contains. rewrite existsb_exists. split.
  - intros [y [Hy Heq]]. apply String.eqb_eq in Heq. now subst.
  - intro H. exists x. split; [assumption | apply String.eqb_refl].
Qed.

Lemma contains_false (x : string) (l : list string) :
  contains x l = false <-> ~ In x l.
Proof.
  rewrite <- contains_In. destruct (contains x l); split; congruence.
Qed.

Lemma mem_get {V : Type} (k : string) (d : dict V) :
  mem k d = false <-> get k d = None.
Proof.
  unfold mem. destruct (get k d); split; congruence.
Qed.

(** *** The loop over the counter [steps] *)

(** [while current_node:] is left at once on a falsy node. *)
Lemma run_loop_falsy (self : WorkflowEngine) (graph : GraphDefinition) (left : nat)
    (current_node : option string) (state : WorkflowState) :
  node_truthy current_node = false ->
  run_loop self graph left current_node state = Returned tt state.
Proof.
  intro H. destruct left; simpl; now rewrite H.
Qed.

(**

    [loop_at] satisfies the equation of the source loop, with
    [steps += 1] and the test [steps > self.max_steps] written out. *)
Lemma run_loop_steps (self : WorkflowEngine) (graph : GraphDefinition) (steps : Z)
    (current_node : option string) (state : WorkflowState) :
  loop_at self graph steps current_node state =
  if negb (node_truthy current_node) then Returned tt state
  else
    let steps := (steps + 1)%Z in
    if (steps >? max_steps self)%Z
    then Returned tt (history_append state (max_steps_entry self))
    else
      match current_node with
      | None => Returned tt state
      | Some node =>
          match execute_node self node state with
          | Raised e state' => Raised e state'
          | Aborted b state' => Aborted b state'
          | Returned outcome state' =>
              let edge_config := get node (edges graph) in
              if negb (edge_truthy edge_config) then Returned tt state'
              else
                match edge_config with
                | None => Returned tt state'
                | Some (Unconditional target) => loop_at self graph steps (Some target) state'
                | Some (Conditional m) =>
                    let current_node := get_target outcome m in
                    if is_None current_node && negb (mem outcome m)
                    then Returned tt (history_append state' (warning_entry outcome))
                    else loop_at self graph steps current_node state'
                end
          end
      end.
Proof.
  unfold loop_at.
  destruct (negb (node_truthy current_node)) eqn:Hnode.
  - apply run_loop_falsy. now destruct (node_truthy current_node).
  - cbv zeta. destruct (Z.gtb_spec (steps + 1) (max_steps self)) as [Hcap|Hcap].
    + replace (Z.to_nat (max_steps self - steps)) with O by lia.
      simpl. rewrite Hnode. now destruct current_node.
    + replace (Z.to_nat (max_steps self - steps))
        with (S (Z.to_nat (max_steps self - (steps + 1)))) by lia.
      simpl. rewrite Hnode. now destruct current_node.
Qed.

Lemma run_workflow_steps (self : WorkflowEngine) (graph : GraphDefinition)
    (state : WorkflowState) :
  run_workflow self graph state =
  match loop_at self graph 0 (Some (start_node graph)) state with
  | Returned _ state' => Returned tt (history_append state' "Workflow Completed.")
  | Raised e state' => Raised e state'
  | Aborted b state' => Aborted b state'
  end.
Proof.
  unfold run_workflow, loop_at. now rewrite Z.sub_0_r.
Qed.

(** The instrumented loop computes the result of [run_loop]. *)
Lemma run_loop_log_result (self : WorkflowEngine) (graph : GraphDefinition) (left : nat) :
  forall current_node state,
    fst (run_loop_log self graph left current_node state)
    = run_loop self graph left current_node state.
Proof.
  induction left as [|left IH]; intros [node|] state; simpl; try reflexivity.
  - destruct (negb (negb (node =? EmptyString))); reflexivity.
  - destruct (negb (negb (node =? EmptyString))); [reflexivity|].
    destruct (execute_node self node state) as [outcome state'|e state'|b state'];
      [|reflexivity|reflexivity].
    destruct (negb (edge_truthy (get node (edges graph)))); [reflexivity|].
    destruct (get node (edges graph)) as [[target|m]|]; simpl; try reflexivity.
    + apply IH.
    + destruct (is_None (get_target outcome m) && negb (mem outcome m)); simpl;
        [reflexivity | apply IH].
Qed.

(* ----------------------------------------------------------------- *)
(** *** [execute_node] *)

(** C10. For a node name that is absent from the registry, [execute_node]
    raises the not-found [ValueError] and the [WorkflowState] it leaves is
    the one it was given: nothing is appended to [history] and [data] is
    untouched. *)
Theorem execute_node_unregistered (self : WorkflowEngine) (node_name : string)
    (state : WorkflowState) :
  get node_name (registry self) = None ->
  execute_node self node_name state
  = Raised (ValueError ("Node '" ++ node_name ++ "' not found in registry.")) state.
Proof.
  intro H. unfold execute_node. now rewrite H.
Qed.

Lemma execute_node_unregistered_witness :
  get "deploy" (registry Nodes.engine) = None /\
  execute_node Nodes.engine "deploy" (mkState [("code", VStr "x = 1")] ["started"])
  = Raised (ValueError "Node 'deploy' not found in registry.")
           (mkState [("code", VStr "x = 1")] ["started"]).
Proof.
  split; [reflexivity|].
  apply (execute_node_unregistered Nodes.engine "deploy"). reflexivity.
Defined.

(** C7. When the step of a registered node returns, the outcome label that
    [execute_node] returns is the returned value if that value is a string,
    and ["next"] for every other value ([None] included). *)
Theorem execute_node_outcome_label (self : WorkflowEngine) (node_name : string)
    (state : WorkflowState) (func : step) (data' : dict value) (result : value) :
  get node_name (registry self) = Some func ->
  func (data state) = (data', Returns result) ->
  exists state',
    execute_node self node_name state
    = Returned (match result with VStr label => label | _ => "next" end) state'
    /\ (forall label, result = VStr label ->
          execute_node self node_name state = Returned label state')
    /\ ((forall label, result <> VStr label) ->
          execute_node self node_name state = Returned "next" state').
Proof.
  intros Hreg Hcall. unfold execute_node. rewrite Hreg. cbn [history_append data].
  rewrite Hcall. eexists. split; [reflexivity|]. split.
  - intros label ->. reflexivity.
  - intro Hnot. destruct result; try reflexivity. now elim (Hnot s).
Qed.

Lemma execute_node_outcome_label_witness :
  exists state',
    execute_node Nodes.engine "check_complexity" (mkState [("functions", VList [])] [])
    = Returned "next" state'.
Proof.
  destruct (execute_node_outcome_label Nodes.engine "check_complexity"
              (mkState [("functions", VList [])] []) node_check_complexity
              [("functions", VList []); ("complexity_score", VInt 0)] VNone
              eq_refl eq_refl) as [state' [H _]].
  exists state'. exact H.
Defined.

(** C6. For a registered node, [execute_node] first appends
    ["Executing: <name>"] to [history] and then calls the step once on
    [data]. If the step raises [e], it appends
    ["Error in <name>: <str(e)>"] and raises the same [e]: [history] ends
    with these two entries, in this order, and [data] is as the step left
    it. If the step returns, the ["Executing: <name>"] entry is the only
    one appended. *)
Theorem execute_node_history (self : WorkflowEngine) (node_name : string)
    (state : WorkflowState) (func : step) (data' : dict value) :
  get node_name (registry self) = Some func ->
  (forall e, func (data state) = (data', Raises e) ->
     execute_node self node_name state
     = Raised e {| data := data';
                   history := history state
                              ++ ["Executing: " ++ node_name;
                                  "Error in " ++ node_name ++ ": " ++ exn_str e] |})
  /\
  (forall result, func (data state) = (data', Returns result) ->
     execute_node self node_name state
     = Returned (outcome_label result)
                {| data := data';
                   history := history state ++ ["Executing: " ++ node_name] |}).
Proof.
  intro Hreg. unfold execute_node. rewrite Hreg. cbn [history_append data].
  split.
  - intros e Hcall. rewrite Hcall. unfold history_append, with_data. cbn [history data].
    now rewrite <- app_assoc.
  - intros result Hcall. rewrite Hcall. reflexivity.
Qed.

Lemma execute_node_history_witness :
  execute_node Nodes.engine "quality_gate" (mkState [("quality_score", VInt 20)] ["begin"])
  = Raised (KeyError "history")
           (mkState [("quality_score", VInt 20)]
                    ["begin"; "Executing: quality_gate"; "Error in quality_gate: 'history'"]).
Proof.
  exact (proj1 (execute_node_history Nodes.engine "quality_gate"
                  (mkState [("quality_score", VInt 20)] ["begin"])
                  node_quality_gate [("quality_score", VInt 20)] eq_refl)
               (KeyError "history") eq_refl).
Defined.

(* ----------------------------------------------------------------- *)
(** *** What [run_workflow] appends to [history] *)

Lemma extended_refl (h : list string) : extended h h.
Proof.
  exists []. split; [now rewrite app_nil_r | intros []].
Qed.

Lemma extended_trans (h1 h2 h3 : list string) :
  extended h1 h2 -> extended h2 h3 -> extended h1 h3.
Proof.
  intros [a [-> Ha]] [b [-> Hb]]. exists (a ++ b)%list. split.
  - now rewrite app_assoc.
  - rewrite in_app_iff. tauto.
Qed.

Lemma extended_append (state : WorkflowState) (entry : string) :
  entry <> "Workflow Completed." ->
  extended (history state) (history (history_append state entry)).
Proof.
  intro Hne. exists [entry]. split; [reflexivity|].
  intros [H|[]]. now apply Hne.
Qed.

Lemma executing_entry_ne (node_name : string) :
  "Executing: " ++ node_name <> "Workflow Completed.".
Proof. discriminate. Qed.

Lemma error_entry_ne (node_name msg : string) :
  "Error in " ++ node_name ++ ": " ++ msg <> "Workflow Completed.".
Proof. discriminate. Qed.

Lemma max_steps_entry_ne (self : WorkflowEngine) :
  max_steps_entry self <> "Workflow Completed.".
Proof. discriminate. Qed.

Lemma warning_entry_ne (outcome : string) :
  warning_entry outcome <> "Workflow Completed.".
Proof. discriminate. Qed.

Lemma execute_node_extended (self : WorkflowEngine) (node_name : string)
    (state : WorkflowState) :
  extended (history state) (history (final_state (execute_node self node_name state))).
Proof.
  unfold execute_node.
  destruct (get node_name (registry self)) as [func|]; [|apply extended_refl].
  destruct (func _) as [data' [result|e|b]]; cbn [final_state].
  - apply (extended_append state), executing_entry_ne.
  - eapply extended_trans.
    + apply (extended_append state), (executing_entry_ne node_name).
    + apply (extended_append (with_data (history_append state _) data')), error_entry_ne.
  - apply (extended_append state), executing_entry_ne.
Qed.

Lemma run_loop_extended (self : WorkflowEngine) (graph : GraphDefinition) (left : nat) :
  forall current_node state,
    extended (history state)
             (history (final_state (run_loop self graph left current_node state))).
Proof.
  induction left as [|left IH]; intros current_node state; simpl;
    destruct (negb (node_truthy current_node)); try apply extended_refl;
    destruct current_node as [node|]; try apply extended_refl.
  - apply extended_append, max_steps_entry_ne.
  - pose proof (execute_node_extended self node state) as Hexec.
    destruct (execute_node self node state) as [outcome state'|e state'|b state'];
      cbn [final_state] in *; [|assumption|assumption].
    destruct (negb (edge_truthy (get node (edges graph)))); [assumption|].
    destruct (get node (edges graph)) as [[target|m]|]; [| |assumption].
    + eapply extended_trans; [eassumption | apply IH].
    + destruct (is_None (get_target outcome m) && negb (mem outcome m)).
      * eapply extended_trans; [eassumption|].
        apply extended_append, warning_entry_ne.
      * eapply extended_trans; [eassumption | apply IH].
Qed.

(** The result of the loop on each way of leaving it. *)
Lemma traversal_loop_at (self : WorkflowEngine) (graph : GraphDefinition) (steps : Z)
    (current_node : option string) (state state1 : WorkflowState) (x : loop_exit) :
  traversal self graph steps current_node state x state1 ->
  loop_at self graph steps current_node state = exit_result x state1.
Proof.
  assert (Htruthy : forall node, node <> EmptyString ->
                      negb (node_truthy (Some node)) = false).
  { intros node Hnode. apply String.eqb_neq in Hnode. simpl. now rewrite Hnode. }
  assert (Hcap : forall k, (k + 1 <= max_steps self)%Z ->
                   (k + 1 >? max_steps self)%Z = false).
  { intros k Hk. destruct (Z.gtb_spec (k + 1) (max_steps self)); [lia | reflexivity]. }
  induction 1 as
    [ steps current_node state Hcur
    | steps node state Hnode Hover
    | steps node state e state' Hnode Hunder Hexec
    | steps node state b state' Hnode Hunder Hexec
    | steps node state outcome state' Hnode Hunder Hexec Hedge
    | steps node state outcome state' m Hnode Hunder Hexec Hedge Hm Hget
    | steps node state outcome state' target x state'' Hnode Hunder Hexec Hedge Htarget _ IH
    | steps node state outcome state' m next x state'' Hnode Hunder Hexec Hedge Hget _ IH ];
    rewrite run_loop_steps.
  - now rewrite Hcur.
  - rewrite (Htruthy node Hnode). cbv zeta.
    destruct (Z.gtb_spec (steps + 1) (max_steps self)); [reflexivity | lia].
  - rewrite (Htruthy node Hnode). cbv zeta. now rewrite (Hcap steps Hunder), Hexec.
  - rewrite (Htruthy node Hnode). cbv zeta. now rewrite (Hcap steps Hunder), Hexec.
  - rewrite (Htruthy node Hnode). cbv zeta. now rewrite (Hcap steps Hunder), Hexec, Hedge.
  - rewrite (Htruthy node Hnode). cbv zeta. rewrite (Hcap steps Hunder), Hexec, Hedge.
    assert (Hnonempty : edge_truthy (Some (Conditional m)) = true)
      by (destruct m; [congruence | reflexivity]).
    rewrite Hnonempty. unfold get_target, mem. now rewrite Hget.
  - rewrite (Htruthy node Hnode). cbv zeta. rewrite (Hcap steps Hunder), Hexec, Hedge.
    apply String.eqb_neq in Htarget. cbn [edge_truthy]. rewrite Htarget. exact IH.
  - rewrite (Htruthy node Hnode). cbv zeta. rewrite (Hcap steps Hunder), Hexec, Hedge.
    assert (Hnonempty : edge_truthy (Some (Conditional m)) = true)
      by (destruct m; [discriminate Hget | reflexivity]).
    rewrite Hnonempty. unfold get_target, mem. rewrite Hget.
    rewrite andb_false_r. exact IH.
Qed.

(** Every traversal leaves the loop in one of the six ways. *)
Lemma traversal_exists (self : WorkflowEngine) (graph : GraphDefinition) (n : nat) :
  forall steps current_node state,
    Z.to_nat (max_steps self - steps) = n ->
    exists x state1, traversal self graph steps current_node state x state1.
Proof.
  induction n as [|n IH]; intros steps current_node state Hn;
    (destruct (node_truthy current_node) eqn:Hcur;
      [|exists ExitTerminal, state; now constructor]);
    destruct current_node as [node|]; try discriminate Hcur;
    assert (Hnode : node <> EmptyString)
      by (apply String.eqb_neq; simpl in Hcur; now destruct (node =? EmptyString)).
  - eexists. eexists. apply T_max_steps; [assumption | lia].
  - assert (Hunder : (steps + 1 <= max_steps self)%Z) by lia.
    assert (Hnext : Z.to_nat (max_steps self - (steps + 1)) = n) by lia.
    destruct (execute_node self node state) as [outcome state'|e state'|b state'] eqn:Hexec.
    2:{ eexists. eexists. eapply T_failure; eassumption. }
    2:{ eexists. eexists. eapply T_abort; eassumption. }
    destruct (edge_truthy (get node (edges graph))) eqn:Hedge.
    2:{ eexists. eexists. eapply T_no_edge; eassumption. }
    destruct (get node (edges graph)) as [[target|m]|] eqn:Hget; [| |discriminate Hedge].
    + assert (Htarget : target <> EmptyString)
        by (apply String.eqb_neq; simpl in Hedge; now destruct (target =? EmptyString)).
      destruct (IH (steps + 1)%Z (Some target) state' Hnext) as (x & state1 & Hrest).
      exists x, state1. eapply T_unconditional; eassumption.
    + destruct (get outcome m) as [next|] eqn:Hout.
      * destruct (IH (steps + 1)%Z next state' Hnext) as (x & state1 & Hrest).
        exists x, state1. eapply T_conditional; eassumption.
      * eexists. eexists. eapply T_unknown_outcome; try eassumption.
        intros ->. discriminate Hedge.
Qed.

(** C1. The traversal of [run_workflow] is left in one of six ways: on a
    current node that is no node (normal terminal exit), on the step cap,
    on a node without edge, on an outcome unknown to a conditional edge,
    or on an exception propagated by [execute_node] (an [Exception], or a
    [BaseException] outside [Exception]). Every run is left in one of
    them. On each of the first four, [run_workflow] returns and [history]
    is the initial history, then the entries of the loop, none of which
    is ["Workflow Completed."], then ["Workflow Completed."] as last
    element: exactly one such entry is appended. On a propagated
    exception, [run_workflow] propagates it and the entries appended
    contain no ["Workflow Completed."]. *)
Theorem run_workflow_completed_entry (self : WorkflowEngine) (graph : GraphDefinition)
    (state : WorkflowState) :
  (exists x state1, traversal self graph 0 (Some (start_node graph)) state x state1)
  /\ (forall x state1,
        traversal self graph 0 (Some (start_node graph)) state x state1 ->
        exists added,
          history state1 = (history state ++ added)%list
          /\ ~ In "Workflow Completed." added
          /\ match x with
             | ExitFailure e => run_workflow self graph state = Raised e state1
             | ExitAbort b => run_workflow self graph state = Aborted b state1
             | ExitTerminal | ExitMaxSteps | ExitNoEdge | ExitUnknownOutcome _ =>
                 run_workflow self graph state
                 = Returned tt
                     (mkState (data state1)
                              (history state ++ added ++ ["Workflow Completed."]))
             end)
  /\ match run_workflow self graph state with
     | Returned _ state' =>
         exists added,
           history state' = (history state ++ added ++ ["Workflow Completed."])%list
           /\ ~ In "Workflow Completed." added
           /\ last (history state') EmptyString = "Workflow Completed."
     | Raised _ state' | Aborted _ state' =>
         exists added,
           history state' = (history state ++ added)%list
           /\ ~ In "Workflow Completed." added
     end.
Proof.
  split; [|split].
  - apply (traversal_exists self graph (Z.to_nat (max_steps self - 0))). reflexivity.
  - intros x state1 Htraversal.
    pose proof (traversal_loop_at _ _ _ _ _ _ _ Htraversal) as Hloop.
    pose proof (run_loop_extended self graph (Z.to_nat (max_steps self - 0))
                  (Some (start_node graph)) state) as [added [Heq Hnot]].
    fold (loop_at self graph 0 (Some (start_node graph)) state) in Heq.
    rewrite run_workflow_steps, Hloop. rewrite Hloop in Heq.
    exists added.
    assert (Hhist : history state1 = (history state ++ added)%list)
      by (destruct x; exact Heq).
    split; [exact Hhist|]. split; [exact Hnot|].
    destruct x; cbn [exit_result]; try reflexivity;
      unfold history_append; rewrite Hhist, <- app_assoc; reflexivity.
  - unfold run_workflow.
    pose proof (run_loop_extended self graph (Z.to_nat (max_steps self))
                  (Some (start_node graph)) state) as [added [Heq Hnot]].
    destruct (run_loop self graph _ _ state) as [[] state'|e state'|b state'];
      cbn [final_state] in Heq.
    + exists added. cbn [history_append history]. rewrite Heq. repeat split.
      * now rewrite app_assoc.
      * assumption.
      * apply last_last.
    + exists added. now split.
    + exists added. now split.
Qed.

Lemma run_workflow_completed_entry_witness :
  (exists added,
     history (mkState [] ["Executing: a";
                          "Warning: Outcome 'next' not defined in edges for node. Ending workflow."])
     = (history (mkState [] []) ++ added)%list
     /\ ~ In "Workflow Completed." added
     /\ run_workflow noop_engine graph_unknown_outcome (mkState [] [])
        = Returned tt (mkState [] (history (mkState [] []) ++ added ++ ["Workflow Completed."])))
  /\ (exists added,
        history (mkState [("k", VInt 1)] ["begin"; "Executing: a"; "Error in a: boom"])
        = (history (mkState [("k", VInt 1)] ["begin"]) ++ added)%list
        /\ ~ In "Workflow Completed." added
        /\ run_workflow (WorkflowEngine_init [("a", failing_step)]) graph_unknown_outcome
             (mkState [("k", VInt 1)] ["begin"])
           = Raised (OtherException "RuntimeError" "boom")
                    (mkState [("k", VInt 1)] ["begin"; "Executing: a"; "Error in a: boom"])).
Proof.
  split.
  - apply (proj1 (proj2 (run_workflow_completed_entry noop_engine graph_unknown_outcome
                           (mkState [] [])))
             (ExitUnknownOutcome "next")).
    apply (T_unknown_outcome noop_engine graph_unknown_outcome 0 "a" (mkState [] [])
             "next" (mkState [] ["Executing: a"]) [("done", None)]);
      try reflexivity; try discriminate.
  - apply (proj1 (proj2 (run_workflow_completed_entry
                           (WorkflowEngine_init [("a", failing_step)]) graph_unknown_outcome
                           (mkState [("k", VInt 1)] ["begin"])))
             (ExitFailure (OtherException "RuntimeError" "boom"))).
    apply T_failure; try reflexivity; try discriminate.
Defined.

(* ----------------------------------------------------------------- *)
(** *** Validation of [GraphDefinition] *)

Lemma validate_targets_fails (nodes_ : list string) (m : dict (option string)) :
  (exists msg, validate_targets nodes_ m = Some msg)
  <-> (exists outcome dest, In (outcome, Some dest) m /\ ~ In dest nodes_).
Proof.
  induction m as [|[outcome [d|]] rest IH]; simpl.
  - split; [intros [? ?]; discriminate | intros (? & ? & [] & _)].
  - destruct (contains d nodes_) eqn:Hd; simpl.
    + rewrite IH. apply contains_In in Hd. split.
      * intros (o & x & Hin & Hx). exists o, x. auto.
      * intros (o & x & [Heq|Hin] & Hx); [|exists o, x; auto].
        inversion Heq; subst. contradiction.
    + apply contains_false in Hd. split; [|eauto].
      intros _. exists outcome, d. auto.
  - rewrite IH. split.
    + intros (o & x & Hin & Hx). exists o, x. auto.
    + intros (o & x & [Heq|Hin] & Hx); [discriminate | exists o, x; auto].
Qed.

Lemma validate_edges_fails (nodes_ : list string) (v : dict edge_config) :
  (exists msg, validate_edges v nodes_ = Some msg)
  <-> (exists source target,
         In (source, target) v /\ (~ In source nodes_ \/ dangling nodes_ target)).
Proof.
  induction v as [|[source target] rest IH]; simpl.
  - split; [intros [? ?]; discriminate | intros (? & ? & [] & _)].
  - assert (Hrest : (exists s t, In (s, t) rest /\ (~ In s nodes_ \/ dangling nodes_ t))
                    -> exists s t, ((source, target) = (s, t) \/ In (s, t) rest)
                                   /\ (~ In s nodes_ \/ dangling nodes_ t)).
    { intros (s & t & Hin & Hbad). exists s, t. auto. }
    destruct (contains source nodes_) eqn:Hs; simpl.
    2:{ apply contains_false in Hs. split; [|eauto].
        intros _. exists source, target. auto. }
    apply contains_In in Hs.
    assert (Hhere : forall s t, (source, target) = (s, t) ->
                      ~ In s nodes_ \/ dangling nodes_ t -> dangling nodes_ target).
    { intros s t Heq [H|H]; inversion Heq; subst; [contradiction | assumption]. }
    destruct target as [t|m].
    + destruct (contains t nodes_) eqn:Ht; simpl.
      * apply contains_In in Ht. rewrite IH. split; [exact Hrest|].
        intros (s & x & [Heq|Hin] & Hbad); [|exists s, x; auto].
        elim (Hhere s x Heq Hbad). exact Ht.
      * apply contains_false in Ht. split; [|eauto].
        intros _. exists source, (Unconditional t). simpl. auto.
    + destruct (validate_targets nodes_ m) as [msg|] eqn:Hm.
      * split; [|eauto]. intros _.
        exists source, (Conditional m). split; [auto|]. right.
        apply validate_targets_fails. eauto.
      * rewrite IH. split; [exact Hrest|].
        intros (s & x & [Heq|Hin] & Hbad); [|exists s, x; auto].
        apply (Hhere s x Heq), validate_targets_fails in Hbad.
        destruct Hbad as [msg Hmsg]. congruence.
Qed.

(** C4. Constructing a [GraphDefinition] fails with a validation error
    exactly when [start_node] is not in [nodes], or some edge source is
    not in [nodes], or some edge destination other than the terminal
    marker (the unconditional string, or a value of a conditional mapping)
    is not in [nodes]. When [start_node] is not in [nodes], the error has
    the message naming it; when construction succeeds, it yields the graph
    with the given fields. *)
Theorem GraphDefinition_init_fails_iff (nodes_ : list string) (edges_ : dict edge_config)
    (start_node_ : string) :
  ((exists errors, GraphDefinition_init nodes_ edges_ start_node_ = inl errors)
   <-> (~ In start_node_ nodes_
        \/ exists source target,
             In (source, target) edges_
             /\ (~ In source nodes_ \/ dangling nodes_ target)))
  /\ (~ In start_node_ nodes_ ->
      exists errors,
        GraphDefinition_init nodes_ edges_ start_node_ = inl errors
        /\ In ("start_node", "start_node '" ++ start_node_ ++ "' must be in nodes list") errors)
  /\ ((exists errors, GraphDefinition_init nodes_ edges_ start_node_ = inl errors)
      \/ GraphDefinition_init nodes_ edges_ start_node_
         = inr (mkGraph nodes_ edges_ start_node_)).
Proof.
  unfold GraphDefinition_init, validate_start_node.
  pose proof (validate_edges_fails nodes_ edges_) as Hedges.
  destruct (contains start_node_ nodes_) eqn:Hstart; simpl.
  - apply contains_In in Hstart.
    destruct (validate_edges edges_ nodes_) as [msg|]; simpl.
    + repeat split; try (intro; contradiction); eauto.
      intros _. right. apply Hedges. eauto.
    + repeat split; try (intro; contradiction); eauto.
      * intros [errors Herr]. discriminate.
      * intros [Hn|Hbad]; [contradiction|].
        apply Hedges in Hbad. destruct Hbad as [msg Hmsg]. discriminate.
  - apply contains_false in Hstart.
    destruct (validate_edges edges_ nodes_) as [msg|]; simpl;
      repeat split; eauto; intros _; eexists; (split; [reflexivity|]); simpl; auto.
Qed.

(* ----------------------------------------------------------------- *)
(** *** Run submission *)

Lemma get_set_same {V : Type} (k : string) (v : V) (d : dict V) :
  get k (set k v d) = Some v.
Proof.
  induction d as [|[k' v'] d IH]; simpl.
  - now rewrite String.eqb_refl.
  - destruct (k' =? k) eqn:Hk; simpl; now rewrite Hk.
Qed.

Lemma unregistered_nodes_In (graph : GraphDefinition) (tool_registry : dict step)
    (node : string) :
  In node (unregistered_nodes graph tool_registry)
  <-> In node (nodes graph) /\ get node tool_registry = None.
Proof.
  unfold unregistered_nodes. rewrite filter_In, negb_true_iff, mem_get. reflexivity.
Qed.

Lemma repr_list_of_str (l : list string) :
  repr (VList (map VStr l)) = "[" ++ join ", " (map repr_str l) ++ "]".
Proof.
  cbn [repr]. now rewrite map_map.
Qed.

(** C5. [run_graph] ends in the 404 not-found exception when the graph id
    is not in [graphs_db]. Otherwise, with [missing] the names of
    [graph.nodes] that are not keys of the registry (in list order): if
    [missing] is not empty it ends in the 400 exception whose detail lists
    exactly [missing], and no run is created nor any task scheduled;
    if [missing] is empty it stores a new run with status [PENDING] under
    the fresh id, with the request's initial data and an empty history,
    schedules the background task for that id and answers with the id. *)
Theorem run_graph_cases (a : stores) (uuid4 : string) (request : RunGraphRequest.t) :
  (get (RunGraphRequest.graph_id request) (graphs_db a) = None ->
   run_graph a uuid4 request
   = inl (HTTPException.mk 404
            ("Graph '" ++ RunGraphRequest.graph_id request ++ "' not found")))
  /\
  (forall graph missing,
     get (RunGraphRequest.graph_id request) (graphs_db a) = Some graph ->
     missing = unregistered_nodes graph (tool_registry a) ->
     (forall node, In node missing
                   <-> In node (nodes graph) /\ get node (tool_registry a) = None)
     /\ (missing <> [] ->
         run_graph a uuid4 request
         = inl (HTTPException.mk 400
                  ("The following nodes are not registered: ["
                   ++ join ", " (map repr_str missing) ++ "]")))
     /\ (missing = [] ->
         exists a',
           run_graph a uuid4 request = inr (RunGraphResponse.mk uuid4 "Submitted", a')
           /\ get uuid4 (runs_db a')
              = Some (mkRun uuid4 (RunGraphRequest.graph_id request) PENDING
                            (mkState (RunGraphRequest.initial_state request) []) None None)
           /\ background_tasks a' = (background_tasks a ++ [uuid4])%list
           /\ graphs_db a' = graphs_db a
           /\ tool_registry a' = tool_registry a)).
Proof.
  unfold run_graph. split.
  - intros ->. reflexivity.
  - intros graph missing -> ->. split; [|split].
    + intro node. apply unregistered_nodes_In.
    + intro Hne. rewrite repr_list_of_str.
      destruct (unregistered_nodes graph (tool_registry a)); [congruence | reflexivity].
    + intros ->. eexists. split; [reflexivity|]. cbn.
      repeat split. apply get_set_same.
Qed.

Lemma run_graph_cases_witness :
  run_graph (mkStores [] [] Nodes.tool_registry []) "id-1"
            (RunGraphRequest.mk "no-such-graph" [])
  = inl (HTTPException.mk 404 "Graph 'no-such-graph' not found")
  /\
  run_graph (mkStores [("g", mkGraph ["extract_functions"; "lint"; "deploy"] [] "lint")] []
                   Nodes.tool_registry [])
            "id-1" (RunGraphRequest.mk "g" [])
  = inl (HTTPException.mk 400 "The following nodes are not registered: ['lint', 'deploy']").
Proof.
  split.
  - apply (proj1 (run_graph_cases (mkStores [] [] Nodes.tool_registry []) "id-1"
                    (RunGraphRequest.mk "no-such-graph" []))).
    reflexivity.
  - apply (proj1 (proj2 (proj2 (run_graph_cases
             (mkStores [("g", mkGraph ["extract_functions"; "lint"; "deploy"] [] "lint")] []
                    Nodes.tool_registry [])
             "id-1" (RunGraphRequest.mk "g" []))
             (mkGraph ["extract_functions"; "lint"; "deploy"] [] "lint")
             ["lint"; "deploy"] eq_refl eq_refl))).
    discriminate.
Defined.

(* ----------------------------------------------------------------- *)
(** *** Conditional edges *)

(** C3, as stated, fails: on an outcome that is not a key of a conditional
    mapping the entry appended starts with ["Warning: "], so the entry of
    the claim is not in [history]; and when the mapping is empty the loop
    is left by [if not edge_config] and nothing is appended for it. Both
    graphs pass validation. *)
Lemma unknown_outcome_entry_counterexample :
  GraphDefinition_init ["a"] [("a", Conditional [("done", None)])] "a"
  = inr graph_unknown_outcome
  /\ run_workflow noop_engine graph_unknown_outcome (mkState [] [])
     = Returned tt (mkState []
         ["Executing: a";
          "Warning: Outcome 'next' not defined in edges for node. Ending workflow.";
          "Workflow Completed."])
  /\ ~ In "Outcome 'next' not defined in edges for node. Ending workflow."
          (history (final_state (run_workflow noop_engine graph_unknown_outcome
                                              (mkState [] []))))
  /\ GraphDefinition_init ["a"] [("a", Conditional [])] "a" = inr graph_empty_mapping
  /\ run_workflow noop_engine graph_empty_mapping (mkState [] [])
     = Returned tt (mkState [] ["Executing: a"; "Workflow Completed."]).
Proof.
  repeat split; try reflexivity.
  vm_compute. intros [H|[H|[H|[]]]]; discriminate.
Qed.

(** C3, amended. In an iteration that executes [node] (the cap is not
    reached) where the edge configuration of [node] is a non-empty
    conditional mapping [m] and the step's outcome label is [outcome]:
    if [outcome] is not a key of [m], the loop is left with exactly the
    entry ["Warning: Outcome '<outcome>' not defined in edges for node.
    Ending workflow."] appended after the entries of [execute_node]; if
    [outcome] is a key mapped to [None], the loop is left with nothing
    appended after the entries of [execute_node]. *)
Theorem conditional_edge_exit (self : WorkflowEngine) (graph : GraphDefinition)
    (left : nat) (node outcome : string) (state state' : WorkflowState)
    (m : dict (option string)) :
  node <> EmptyString ->
  execute_node self node state = Returned outcome state' ->
  get node (edges graph) = Some (Conditional m) ->
  m <> [] ->
  (get outcome m = None ->
   run_loop self graph (S left) (Some node) state
   = Returned tt
       {| data := data state';
          history := history state'
                     ++ ["Warning: Outcome '" ++ outcome
                         ++ "' not defined in edges for node. Ending workflow."] |})
  /\
  (get outcome m = Some None ->
   run_loop self graph (S left) (Some node) state = Returned tt state').
Proof.
  intros Hnode Hexec Hedge Hm.
  apply String.eqb_neq in Hnode.
  assert (Htruthy : edge_truthy (Some (Conditional m)) = true)
    by (destruct m; [congruence | reflexivity]).
  split; intro Hget; simpl; rewrite Hnode, Hexec, Hedge, Htruthy; simpl;
    unfold get_target, mem; rewrite Hget; simpl.
  - reflexivity.
  - now apply run_loop_falsy.
Qed.

Lemma conditional_edge_exit_witness :
  run_loop noop_engine graph_unknown_outcome 50 (Some "a") (mkState [] ["begin"])
  = Returned tt (mkState []
      ["begin"; "Executing: a";
       "Warning: Outcome 'next' not defined in edges for node. Ending workflow."]).
Proof.
  apply (proj1 (conditional_edge_exit noop_engine graph_unknown_outcome 49 "a" "next"
                  (mkState [] ["begin"]) (mkState [] ["begin"; "Executing: a"])
                  [("done", None)]
                  ltac:(discriminate) eq_refl eq_refl ltac:(discriminate))).
  reflexivity.
Defined.

(* ----------------------------------------------------------------- *)
(** *** Graphs without an exit *)

Lemma endless_run_loop_log (self : WorkflowEngine) (graph : GraphDefinition) :
  endless self graph ->
  forall left node state,
    In node (nodes graph) ->
    exists state' log,
      run_loop_log self graph left (Some node) state = (Returned tt state', log)
      /\ List.length log = left
      /\ history state'
         = (history state ++ executing_entries log ++ [max_steps_entry self])%list.
Proof.
  intros Hendless.
  induction left as [|left IH]; intros node state Hin;
    destruct (Hendless node Hin) as [Hname [func [Hreg Hfunc]]];
    apply String.eqb_neq in Hname; simpl; rewrite Hname; simpl.
  - exists (history_append state (max_steps_entry self)), []. repeat split.
  - unfold execute_node. rewrite Hreg.
    destruct (Hfunc (data (history_append state ("Executing: " ++ node))))
      as (d' & result & next & Hcall & Hroute & Hnext).
    rewrite Hcall.
    destruct (Hendless next Hnext) as [Hnext_name _].
    apply String.eqb_neq in Hnext_name.
    unfold routes in Hroute.
    set (state1 := with_data (history_append state ("Executing: " ++ node)) d').
    destruct (IH next state1 Hnext) as (state' & log & Hrun & Hlen & Hhist).
    assert (Hresult : history state'
                      = (history state
                         ++ executing_entries ((node, outcome_label result) :: log)
                         ++ [max_steps_entry self])%list).
    { rewrite Hhist. unfold state1. cbn [with_data history_append history].
      rewrite <- app_assoc. reflexivity. }
    destruct (get node (edges graph)) as [[target|targets]|]; [| |contradiction].
    + subst target. simpl. rewrite Hnext_name. simpl. rewrite Hrun. simpl.
      exists state', ((node, outcome_label result) :: log).
      repeat split; [simpl; congruence | exact Hresult].
    + assert (Htargets : edge_truthy (Some (Conditional targets)) = true)
        by (destruct targets; [discriminate | reflexivity]).
      rewrite Htargets. unfold get_target. rewrite Hroute. simpl. rewrite Hrun. simpl.
      exists state', ((node, outcome_label result) :: log).
      repeat split; [simpl; congruence | exact Hresult].
Qed.

(** C2, as stated, fails on a cycle through a node whose name is the empty
    string: the graph passes validation, its only node is registered, has
    an unconditional successor in the graph and a step that never raises,
    yet [while current_node:] is left before any execution, no max-steps
    entry is appended and no node is executed. *)
Lemma empty_name_cycle_counterexample :
  GraphDefinition_init [EmptyString] [(EmptyString, Unconditional EmptyString)] EmptyString
  = inr graph_empty_name
  /\ (forall node, In node (nodes graph_empty_name) ->
        get node (registry engine_empty_name) = Some noop_step
        /\ get node (edges graph_empty_name) = Some (Unconditional node)
        /\ forall d, noop_step d = (d, Returns VNone))
  /\ run_workflow engine_empty_name graph_empty_name (mkState [] [])
     = Returned tt (mkState [] ["Workflow Completed."])
  /\ executions engine_empty_name graph_empty_name (mkState [] []) = []
  /\ ~ In (max_steps_entry engine_empty_name)
          (history (final_state (run_workflow engine_empty_name graph_empty_name
                                              (mkState [] [])))).
Proof.
  repeat split; try reflexivity.
  - destruct H as [<-|[]]. reflexivity.
  - destruct H as [<-|[]]. reflexivity.
  - vm_compute. intros [H|[]]. discriminate.
Qed.

(** C2, amended. For every graph whose node names are non-empty, whose
    nodes are all registered with steps that never raise, and in which
    every node's edge leads, on whatever its step returns, to a node of
    the graph (for instance every node has an unconditional successor):
    [run_workflow] returns after exactly [max_steps] node executions;
    [history] is extended by the [max_steps] entries ["Executing: ..."],
    then the max-steps entry, then ["Workflow Completed."]; and a run of
    this graph ends with status [COMPLETED] and its [error] untouched. *)
Theorem endless_graph_hits_step_cap (self : WorkflowEngine) (graph : GraphDefinition)
    (state0 : WorkflowState) :
  endless self graph ->
  In (start_node graph) (nodes graph) ->
  exists state',
    run_workflow self graph state0 = Returned tt state'
    /\ List.length (executions self graph state0) = Z.to_nat (max_steps self)
    /\ history state'
       = (history state0 ++ executing_entries (executions self graph state0)
          ++ [("Max steps (" ++ str_of_Z (max_steps self) ++ ") reached. Terminating.")%string;
              "Workflow Completed."])%list
    /\ forall graphs_db run,
         get (graph_id run) graphs_db = Some graph ->
         state run = state0 ->
         status (run_task self graphs_db run) = COMPLETED
         /\ state (run_task self graphs_db run) = state'
         /\ error (run_task self graphs_db run) = error run.
Proof.
  intros Hendless Hstart.
  destruct (endless_run_loop_log self graph Hendless (Z.to_nat (max_steps self))
              (start_node graph) state0 Hstart) as (state1 & log & Hrun & Hlen & Hhist).
  assert (Hloop : run_loop self graph (Z.to_nat (max_steps self))
                    (Some (start_node graph)) state0 = Returned tt state1).
  { rewrite <- run_loop_log_result, Hrun. reflexivity. }
  assert (Hwf : run_workflow self graph state0
                = Returned tt (history_append state1 "Workflow Completed.")).
  { unfold run_workflow. now rewrite Hloop. }
  exists (history_append state1 "Workflow Completed."). unfold executions.
  rewrite Hrun. cbn [snd]. split; [exact Hwf|]. split; [exact Hlen|]. split.
  - cbn [history_append history]. rewrite Hhist. unfold max_steps_entry.
    now rewrite <- !app_assoc.
  - intros graphs_db run Hgraph Hstate.
    unfold run_task. rewrite Hgraph, Hstate, Hwf. repeat split.
Qed.

Lemma endless_two_cycle : endless engine_two_cycle graph_two_cycle.
Proof.
  intros node [<-|[<-|[]]]; (split; [discriminate|]);
    exists noop_step; (split; [reflexivity|]); intro d.
  - exists d, VNone, "b". repeat split. simpl. auto.
  - exists d, VNone, "a". repeat split. simpl. auto.
Qed.

Lemma endless_graph_hits_step_cap_witness :
  exists state',
    run_workflow engine_two_cycle graph_two_cycle (mkState [] []) = Returned tt state'
    /\ List.length (executions engine_two_cycle graph_two_cycle (mkState [] [])) = 50%nat
    /\ history state'
       = (executing_entries (executions engine_two_cycle graph_two_cycle (mkState [] []))
          ++ ["Max steps (50) reached. Terminating."; "Workflow Completed."])%list
    /\ status (run_task engine_two_cycle [("g", graph_two_cycle)]
                        (mkRun "r" "g" PENDING (mkState [] []) None None))
       = COMPLETED.
Proof.
  destruct (endless_graph_hits_step_cap engine_two_cycle graph_two_cycle (mkState [] [])
              endless_two_cycle (or_introl eq_refl))
    as (state' & Hrun & Hlen & Hhist & Hstatus).
  exists state'. split; [exact Hrun|]. split; [exact Hlen|]. split.
  - rewrite Hhist. change (history (mkState [] [])) with (@nil string).
    rewrite app_nil_l. f_equal.
  - exact (proj1 (Hstatus [("g", graph_two_cycle)]
                    (mkRun "r" "g" PENDING (mkState [] []) None None) eq_refl eq_refl)).
Defined.

(* ----------------------------------------------------------------- *)
(** *** The preloaded graph, end to end *)

Lemma default_graph_valid : default_graph = inr code_review_graph.
Proof. reflexivity. Qed.

Lemma lifespan_preloads : lifespan [] = inr [("code-review-agent", code_review_graph)].
Proof. reflexivity. Qed.

Lemma code_review_graph_registered :
  unregistered_nodes code_review_graph Nodes.tool_registry = [].
Proof. reflexivity. Qed.

Lemma submit_and_run_task (uuid4 : string) (initial_state : dict value) :
  submit_and_run uuid4 initial_state
  = Some (run_task Nodes.engine [("code-review-agent", code_review_graph)]
            (mkRun uuid4 "code-review-agent" PENDING (mkState initial_state []) None None)).
Proof.
  unfold submit_and_run. rewrite lifespan_preloads.
  unfold run_graph. cbn [RunGraphRequest.graph_id graphs_db tool_registry].
  change (get default_graph_id [("code-review-agent", code_review_graph)])
    with (Some code_review_graph).
  cbv beta iota. rewrite code_review_graph_registered.
  cbn [background_tasks runs_db graphs_db tool_registry List.app set
       RunGraphRequest.initial_state].
  unfold run_workflow_background. cbn [get]. rewrite String.eqb_refl.
  cbn [set]. rewrite String.eqb_refl. cbn [get]. now rewrite String.eqb_refl.
Qed.

(** One iteration of the instrumented loop over an unconditional edge. *)
Lemma run_loop_log_unconditional (self : WorkflowEngine) (graph : GraphDefinition)
    (left : nat) (node target outcome : string) (state state' : WorkflowState) :
  node <> EmptyString ->
  target <> EmptyString ->
  execute_node self node state = Returned outcome state' ->
  get node (edges graph) = Some (Unconditional target) ->
  run_loop_log self graph (S left) (Some node) state
  = (fst (run_loop_log self graph left (Some target) state'),
     (node, outcome) :: snd (run_loop_log self graph left (Some target) state')).
Proof.
  intros Hnode Htarget Hexec Hedge.
  apply String.eqb_neq in Hnode. apply String.eqb_neq in Htarget.
  simpl. rewrite Hnode, Hexec, Hedge. simpl. rewrite Htarget. reflexivity.
Qed.

(** The run of the preloaded graph once [extract_functions] has stored
    three lines, with [data["history"]] an empty list. *)
Lemma code_review_loop_with_history (code : string) (functions : list string) :
  List.length functions = 3%nat ->
  run_loop_log Nodes.engine code_review_graph 49 (Some "check_complexity")
    (mkState [("code", VStr code); ("history", VList []);
              ("functions", VList (map VStr functions))]
             ["Executing: extract_functions"])
  = (Returned tt
       (mkState
          [("code", VStr code);
           ("history", VList [VStr "Quality Gate: score=20"; VStr "Quality Gate: score=40";
                              VStr "Quality Gate: score=60"; VStr "Quality Gate: score=80"]);
           ("functions", VList (map VStr functions));
           ("complexity_score", VInt 6);
           ("issues", VList [VStr "Line 10: Too long"]);
           ("suggestions", VStr "Refactor logic to reduce complexity");
           ("quality_score", VInt 80)]
          ["Executing: extract_functions"; "Executing: check_complexity";
           "Executing: detect_issues"; "Executing: suggest_improvements";
           "Executing: quality_gate";
           "Executing: detect_issues"; "Executing: suggest_improvements";
           "Executing: quality_gate";
           "Executing: detect_issues"; "Executing: suggest_improvements";
           "Executing: quality_gate";
           "Executing: detect_issues"; "Executing: suggest_improvements";
           "Executing: quality_gate"]),
     [("check_complexity", "next");
      ("detect_issues", "next"); ("suggest_improvements", "next"); ("quality_gate", "retry");
      ("detect_issues", "next"); ("suggest_improvements", "next"); ("quality_gate", "retry");
      ("detect_issues", "next"); ("suggest_improvements", "next"); ("quality_gate", "retry");
      ("detect_issues", "next"); ("suggest_improvements", "next"); ("quality_gate", "pass")]).
Proof.
  destruct functions as [|f1 [|f2 [|f3 [|f4 rest]]]]; try discriminate.
  intros _. vm_compute. reflexivity.
Qed.

Lemma run_workflow_of_log (self : WorkflowEngine) (graph : GraphDefinition)
    (state state' : WorkflowState) (log : list (string * string)) :
  run_loop_log self graph (Z.to_nat (max_steps self)) (Some (start_node graph)) state
  = (Returned tt state', log) ->
  run_workflow self graph state = Returned tt (history_append state' "Workflow Completed.")
  /\ executions self graph state = log.
Proof.
  intro Hlog. unfold run_workflow, executions.
  rewrite <- run_loop_log_result, Hlog. split; reflexivity.
Qed.

Lemma run_task_returned (self : WorkflowEngine) (graphs : dict GraphDefinition)
    (graph : GraphDefinition) (run : WorkflowRun) (state' : WorkflowState) :
  get (graph_id run) graphs = Some graph ->
  run_workflow self graph (state run) = Returned tt state' ->
  run_task self graphs run
  = mkRun (run_id run) (graph_id run) COMPLETED state' (current_node run) (error run).
Proof.
  intros Hgraph Hrun. unfold run_task. now rewrite Hgraph, Hrun.
Qed.

(** C8. The preloaded graph is submitted with initial data made of a
    [code] whose lines contain ["def "] exactly three times and of
    [history = []]. The nodes executed, with their outcomes, are the
    linear chain once and then the cycle [detect_issues],
    [suggest_improvements], [quality_gate]: [quality_gate] is executed
    four times, returns ["retry"] three times and then ["pass"], and logs
    the scores 20, 40, 60, 80 in [data["history"]]; the stored run ends
    [COMPLETED] with no error and ["Workflow Completed."] as last entry. *)
Theorem code_review_with_history (uuid4 code : string) :
  List.length (def_lines code) = 3%nat ->
  executions Nodes.engine code_review_graph
    (mkState [("code", VStr code); ("history", VList [])] [])
  = [("extract_functions", "next"); ("check_complexity", "next");
     ("detect_issues", "next"); ("suggest_improvements", "next"); ("quality_gate", "retry");
     ("detect_issues", "next"); ("suggest_improvements", "next"); ("quality_gate", "retry");
     ("detect_issues", "next"); ("suggest_improvements", "next"); ("quality_gate", "retry");
     ("detect_issues", "next"); ("suggest_improvements", "next"); ("quality_gate", "pass")]
  /\
  submit_and_run uuid4 [("code", VStr code); ("history", VList [])]
  = Some
      (mkRun uuid4 "code-review-agent" COMPLETED
         (mkState
            [("code", VStr code);
             ("history", VList [VStr "Quality Gate: score=20"; VStr "Quality Gate: score=40";
                                VStr "Quality Gate: score=60"; VStr "Quality Gate: score=80"]);
             ("functions", VList (map VStr (def_lines code)));
             ("complexity_score", VInt 6);
             ("issues", VList [VStr "Line 10: Too long"]);
             ("suggestions", VStr "Refactor logic to reduce complexity");
             ("quality_score", VInt 80)]
            ["Executing: extract_functions"; "Executing: check_complexity";
             "Executing: detect_issues"; "Executing: suggest_improvements";
             "Executing: quality_gate";
             "Executing: detect_issues"; "Executing: suggest_improvements";
             "Executing: quality_gate";
             "Executing: detect_issues"; "Executing: suggest_improvements";
             "Executing: quality_gate";
             "Executing: detect_issues"; "Executing: suggest_improvements";
             "Executing: quality_gate";
             "Workflow Completed."])
         None None).
Proof.
  intro Hthree.
  assert (Hexec :
    execute_node Nodes.engine "extract_functions"
      (mkState [("code", VStr code); ("history", VList [])] [])
    = Returned "next"
        (mkState [("code", VStr code); ("history", VList []);
                  ("functions", VList (map VStr (def_lines code)))]
                 ["Executing: extract_functions"])) by reflexivity.
  pose proof (run_loop_log_unconditional Nodes.engine code_review_graph 49
                "extract_functions" "check_complexity" "next" _ _
                ltac:(discriminate) ltac:(discriminate) Hexec eq_refl) as Hfirst.
  rewrite (code_review_loop_with_history code (def_lines code) Hthree) in Hfirst.
  cbn [fst snd] in Hfirst.
  destruct (run_workflow_of_log Nodes.engine code_review_graph _ _ _ Hfirst)
    as [Hrun Hlog].
  split; [exact Hlog|].
  rewrite submit_and_run_task.
  exact (f_equal Some
           (run_task_returned Nodes.engine [("code-review-agent", code_review_graph)]
              code_review_graph
              (mkRun uuid4 "code-review-agent" PENDING
                     (mkState [("code", VStr code); ("history", VList [])] []) None None)
              _ eq_refl Hrun)).
Qed.

Lemma code_review_with_history_witness :
  List.length (def_lines three_defs) = 3%nat
  /\ exists run,
       submit_and_run "run-1" [("code", VStr three_defs); ("history", VList [])] = Some run
       /\ status run = COMPLETED
       /\ get "quality_score" (data (state run)) = Some (VInt 80).
Proof.
  split; [reflexivity|].
  eexists. split; [|split].
  - exact (proj2 (code_review_with_history "run-1" three_defs eq_refl)).
  - reflexivity.
  - reflexivity.
Defined.

(** C9. The preloaded graph is submitted with the initial data
    [{"code": "def a():\n  pass\ndef b():\n  pass\ndef c():\n  pass"}] and
    no ["history"] key: [extract_functions] collects three lines,
    [complexity_score] becomes 6, [issues] is non-empty, [quality_score]
    becomes 20, then [quality_gate] raises [KeyError('history')]; the
    stored run ends [FAILED] with [error] the text ['history'], which is
    also recorded in the last two entries of [history]. *)
Theorem code_review_without_history :
  executions Nodes.engine code_review_graph (mkState [("code", VStr three_defs)] [])
  = [("extract_functions", "next"); ("check_complexity", "next");
     ("detect_issues", "next"); ("suggest_improvements", "next")]
  /\
  run_workflow Nodes.engine code_review_graph (mkState [("code", VStr three_defs)] [])
  = Raised (KeyError "history")
      (mkState
         [("code", VStr three_defs);
          ("functions", VList [VStr "def a():"; VStr "def b():"; VStr "def c():"]);
          ("complexity_score", VInt 6);
          ("issues", VList [VStr "Line 10: Too long"]);
          ("suggestions", VStr "Refactor logic to reduce complexity");
          ("quality_score", VInt 20)]
         ["Executing: extract_functions"; "Executing: check_complexity";
          "Executing: detect_issues"; "Executing: suggest_improvements";
          "Executing: quality_gate"; "Error in quality_gate: 'history'"])
  /\
  submit_and_run "run-1" [("code", VStr three_defs)]
  = Some
      (mkRun "run-1" "code-review-agent" FAILED
         (mkState
            [("code", VStr three_defs);
             ("functions", VList [VStr "def a():"; VStr "def b():"; VStr "def c():"]);
             ("complexity_score", VInt 6);
             ("issues", VList [VStr "Line 10: Too long"]);
             ("suggestions", VStr "Refactor logic to reduce complexity");
             ("quality_score", VInt 20)]
            ["Executing: extract_functions"; "Executing: check_complexity";
             "Executing: detect_issues"; "Executing: suggest_improvements";
             "Executing: quality_gate"; "Error in quality_gate: 'history'";
             "Workflow failed: 'history'"])
         None (Some "'history'")).
Proof.
  split; [|split]; vm_compute; reflexivity.
Qed.

(* ================================================================= *)
(** ** Further properties of the engine *)

(** *** Dictionaries *)

Lemma get_set_other {V : Type} (k k' : string) (v : V) (d : dict V) :
  k <> k' -> get k' (set k v d) = get k' d.
Proof.
  intro Hne. induction d as [|[k0 v0] d IH]; simpl.
  - apply String.eqb_neq in Hne. now rewrite Hne.
  - destruct (k0 =? k) eqn:Hk; simpl.
    + apply String.eqb_eq in Hk. subst k0.
      apply String.eqb_neq in Hne. now rewrite Hne.
    + destruct (k0 =? k'); [reflexivity | exact IH].
Qed.

Lemma get_In {V : Type} (k : string) (v : V) (d : dict V) :
  get k d = Some v -> In (k, v) d.
Proof.
  induction d as [|[k0 v0] d IH]; simpl; [discriminate|].
  destruct (k0 =? k) eqn:Hk.
  - apply String.eqb_eq in Hk. intro H. inversion H. subst. now left.
  - intro H. right. now apply IH.
Qed.

Lemma length_set {V : Type} (k : string) (v : V) (d : dict V) :
  List.length (set k v d)
  = if mem k d then List.length d else S (List.length d).
Proof.
  unfold mem. induction d as [|[k0 v0] d IH]; simpl; [reflexivity|].
  destruct (k0 =? k) eqn:Hk; simpl; [reflexivity|].
  rewrite IH. now destruct (get k d).
Qed.

(** *** [register_tool] *)

(** X1. After [register_tool(name, func)] the node [name] is executed by
    [func], whatever was registered under [name] before: the entry
    ["Executing: <name>"] is appended, [func] is called on [data], and the
    not-found error cannot occur; an [Exception] of [func] is logged and
    re-raised, a [BaseException] outside [Exception] passes unlogged. Every other node name is executed as
    before, and [max_steps] is unchanged. *)
Theorem register_tool_execute (self : WorkflowEngine) (name : string) (func : step)
    (state : WorkflowState) :
  execute_node (register_tool self name func) name state
  = match func (data state) with
    | (data', Returns result) =>
        Returned (outcome_label result)
                 (mkState data' (history state ++ ["Executing: " ++ name]))
    | (data', Raises e) =>
        Raised e (mkState data' (history state
                                 ++ ["Executing: " ++ name;
                                     "Error in " ++ name ++ ": " ++ exn_str e]))
    | (data', Aborts b) =>
        Aborted b (mkState data' (history state ++ ["Executing: " ++ name]))
    end
  /\ (forall other, other <> name ->
        execute_node (register_tool self name func) other state
        = execute_node self other state)
  /\ max_steps (register_tool self name func) = max_steps self.
Proof.
  split; [|split; [|reflexivity]].
  - unfold execute_node, register_tool. cbn [registry]. rewrite get_set_same.
    cbn [history_append data].
    destruct (func (data state)) as [data' [result|e|b]]; [reflexivity| |reflexivity].
    unfold history_append, with_data. cbn [history data]. now rewrite <- app_assoc.
  - intros other Hne. unfold execute_node, register_tool. cbn [registry].
    rewrite get_set_other by congruence. reflexivity.
Qed.

(** *** Bounds and shape of a traversal *)

Lemma run_loop_log_length (self : WorkflowEngine) (graph : GraphDefinition) (left : nat) :
  forall current_node state,
    List.length (snd (run_loop_log self graph left current_node state)) <= left.
Proof.
  induction left as [|left IH]; intros [node|] state; simpl; try lia.
  - destruct (negb (negb (node =? EmptyString))); simpl; lia.
  - destruct (negb (negb (node =? EmptyString))); simpl; [lia|].
    destruct (execute_node self node state) as [outcome state'|e state'|b state'];
      simpl; [|lia|lia].
    destruct (negb (edge_truthy (get node (edges graph)))); simpl; [lia|].
    destruct (get node (edges graph)) as [[target|m]|]; simpl; try lia.
    + specialize (IH (Some target) state'). lia.
    + destruct (is_None (get_target outcome m) && negb (mem outcome m)); simpl; [lia|].
      specialize (IH (get_target outcome m) state'). lia.
Qed.

Lemma execute_node_returned (self : WorkflowEngine) (node_name outcome : string)
    (state state' : WorkflowState) :
  execute_node self node_name state = Returned outcome state' ->
  history state' = (history state ++ [("Executing: " ++ node_name)%string])%list
  /\ exists func result,
       get node_name (registry self) = Some func
       /\ func (data state) = (data state', Returns result)
       /\ outcome = outcome_label result.
Proof.
  unfold execute_node.
  destruct (get node_name (registry self)) as [func|]; [|discriminate].
  cbn [history_append data].
  destruct (func (data state)) as [data' [result|e|b]] eqn:Hcall;
    [|discriminate|discriminate].
  intro H. inversion H. subst. split; [reflexivity|].
  exists func, result. auto.
Qed.

Lemma execute_node_raised (self : WorkflowEngine) (node_name : string) (e : exn)
    (state state' : WorkflowState) :
  execute_node self node_name state = Raised e state' ->
  (get node_name (registry self) = None
   /\ e = ValueError ("Node '" ++ node_name ++ "' not found in registry.")
   /\ state' = state)
  \/ (history state'
      = (history state ++ [("Executing: " ++ node_name)%string;
                           ("Error in " ++ node_name ++ ": " ++ exn_str e)%string])%list
      /\ exists func,
           get node_name (registry self) = Some func
           /\ func (data state) = (data state', Raises e)).
Proof.
  unfold execute_node.
  destruct (get node_name (registry self)) as [func|].
  - cbn [history_append data].
    destruct (func (data state)) as [data' [result|e'|b]] eqn:Hcall;
      [discriminate| |discriminate].
    intro H. inversion H. subst. right. split.
    + cbn [history_append with_data history]. now rewrite <- app_assoc.
    + exists func. auto.
  - intro H. inversion H. subst. left. auto.
Qed.

Lemma execute_node_aborted (self : WorkflowEngine) (node_name : string) (b : base_exn)
    (state state' : WorkflowState) :
  execute_node self node_name state = Aborted b state' ->
  history state' = (history state ++ [("Executing: " ++ node_name)%string])%list
  /\ exists func,
       get node_name (registry self) = Some func
       /\ func (data state) = (data state', Aborts b).
Proof.
  unfold execute_node.
  destruct (get node_name (registry self)) as [func|]; [|discriminate].
  cbn [history_append data].
  destruct (func (data state)) as [data' [result|e|b']] eqn:Hcall;
    [discriminate|discriminate|].
  intro H. inversion H. subst. split; [reflexivity|].
  exists func. auto.
Qed.

(** What the loop wrote, relative to the logged executions. *)
Lemma run_loop_log_shape (self : WorkflowEngine) (graph : GraphDefinition) (left : nat) :
  forall current_node state,
    exists entries,
      history (final_state (fst (run_loop_log self graph left current_node state)))
      = (history state
         ++ executing_entries (snd (run_loop_log self graph left current_node state))
         ++ entries)%list
      /\ loop_entries self (fst (run_loop_log self graph left current_node state)) entries.
Proof.
  assert (Hnil : forall state : WorkflowState,
             exists entries,
               history state = (history state ++ executing_entries [] ++ entries)%list
               /\ loop_exit_entries self entries).
  { intro state. exists []. split; [now rewrite !app_nil_r | now left]. }
  assert (Hcons : forall (state state' : WorkflowState) node outcome,
             history state' = (history state ++ [("Executing: " ++ node)%string])%list ->
             forall (h : list string) log entries,
               h = (history state' ++ executing_entries log ++ entries)%list ->
               h = (history state ++ executing_entries ((node, outcome) :: log) ++ entries)%list).
  { intros state state' node outcome H1 h log entries H2.
    rewrite H2, H1. cbn [executing_entries map fst]. now rewrite <- app_assoc. }
  induction left as [|left IH]; intros [node|] state; simpl; try apply Hnil.
  - destruct (negb (negb (node =? EmptyString))); [apply Hnil|].
    exists [max_steps_entry self]. split; [reflexivity | right; now left].
  - destruct (negb (negb (node =? EmptyString))); [apply Hnil|].
    destruct (execute_node self node state) as [outcome state'|e state'|b state'] eqn:Hexec.
    2:{ apply execute_node_raised in Hexec.
        destruct Hexec as [(Hreg & He & ->)|[Hhist _]].
        - exists []. split; [now rewrite !app_nil_r|]. exists node. left. auto.
        - exists [("Executing: " ++ node)%string;
                  ("Error in " ++ node ++ ": " ++ exn_str e)%string].
          split; [exact Hhist|]. exists node. now right. }
    2:{ apply execute_node_aborted in Hexec. destruct Hexec as [Hhist _].
        exists [("Executing: " ++ node)%string]. split; [exact Hhist|].
        now exists node. }
    apply execute_node_returned in Hexec. destruct Hexec as [Hhist _].
    assert (Hstop : exists entries,
               history state'
               = (history state ++ executing_entries [(node, outcome)] ++ entries)%list
               /\ loop_exit_entries self entries).
    { exists []. split; [|now left].
      apply (Hcons state state' node outcome Hhist _ [] []).
      now rewrite !app_nil_r. }
    destruct (negb (edge_truthy (get node (edges graph)))); simpl; [exact Hstop|].
    destruct (get node (edges graph)) as [[target|m]|]; simpl; [| |exact Hstop].
    + destruct (IH (Some target) state') as [entries [H Hentries]].
      exists entries.
      split; [exact (Hcons state state' node outcome Hhist _ _ entries H) | exact Hentries].
    + destruct (is_None (get_target outcome m) && negb (mem outcome m)); simpl.
      * exists [warning_entry outcome]. split.
        -- apply (Hcons state state' node outcome Hhist _ [] [warning_entry outcome]).
           reflexivity.
        -- right. right. now exists outcome.
      * destruct (IH (get_target outcome m) state') as [entries [H Hentries]].
        exists entries.
        split; [exact (Hcons state state' node outcome Hhist _ _ entries H) | exact Hentries].
Qed.

Lemma started_steps_app (a b : list string) :
  started_steps (a ++ b) = started_steps a + started_steps b.
Proof.
  unfold started_steps. now rewrite filter_app, length_app.
Qed.

Lemma started_steps_executing (node : string) :
  started_steps [("Executing: " ++ node)%string] = 1.
Proof.
  unfold started_steps. simpl. now destruct node.
Qed.

(** What the loop appends holds at most [left] ["Executing: ..."]
    entries, whichever way it ends. *)
Lemma run_loop_started_steps (self : WorkflowEngine) (graph : GraphDefinition) (left : nat) :
  forall current_node state,
    exists added,
      history (final_state (run_loop self graph left current_node state))
      = (history state ++ added)%list
      /\ started_steps added <= left.
Proof.
  assert (Hnil : forall (state : WorkflowState) n,
             exists added,
               history state = (history state ++ added)%list /\ started_steps added <= n).
  { intros state n. exists []. split; [now rewrite app_nil_r | cbn; lia]. }
  induction left as [|left IH]; intros [node|] state; simpl; try apply Hnil.
  - destruct (negb (negb (node =? EmptyString))); [apply Hnil|].
    exists [max_steps_entry self]. split; [reflexivity | cbn; lia].
  - destruct (negb (negb (node =? EmptyString))); [apply Hnil|].
    destruct (execute_node self node state) as [outcome state'|e state'|b state'] eqn:Hexec.
    2:{ cbn [final_state]. apply execute_node_raised in Hexec.
        destruct Hexec as [(_ & _ & ->)|[Hhist _]]; [apply Hnil|].
        eexists. split; [exact Hhist|].
        change [("Executing: " ++ node)%string;
                ("Error in " ++ node ++ ": " ++ exn_str e)%string]
          with ([("Executing: " ++ node)%string]
                ++ [("Error in " ++ node ++ ": " ++ exn_str e)%string])%list.
        rewrite started_steps_app, started_steps_executing. cbn. lia. }
    2:{ cbn [final_state]. apply execute_node_aborted in Hexec. destruct Hexec as [Hhist _].
        eexists. split; [exact Hhist|]. rewrite started_steps_executing. lia. }
    apply execute_node_returned in Hexec. destruct Hexec as [Hhist _].
    assert (Hstop : exists added,
               history state' = (history state ++ added)%list
               /\ started_steps added <= S left).
    { eexists. split; [exact Hhist|]. rewrite started_steps_executing. lia. }
    assert (Hnext : forall (h : list string) rest,
               h = (history state' ++ rest)%list ->
               started_steps rest <= left ->
               exists added,
                 h = (history state ++ added)%list /\ started_steps added <= S left).
    { intros h rest -> Hrest. exists ([("Executing: " ++ node)%string] ++ rest)%list.
      split; [now rewrite Hhist, <- app_assoc|].
      rewrite started_steps_app, started_steps_executing. lia. }
    destruct (negb (edge_truthy (get node (edges graph)))); [exact Hstop|].
    destruct (get node (edges graph)) as [[target|m]|]; [| |exact Hstop].
    + destruct (IH (Some target) state') as [rest [H Hrest]].
      exact (Hnext _ rest H Hrest).
    + destruct (is_None (get_target outcome m) && negb (mem outcome m)).
      * cbn [final_state]. apply (Hnext _ [warning_entry outcome]); [reflexivity | cbn; lia].
      * destruct (IH (get_target outcome m) state') as [rest [H Hrest]].
        exact (Hnext _ rest H Hrest).
Qed.

(** X2. Whatever the graph (cyclic or not), the registry and the state,
    and whichever way [run_workflow] ends (it returns, a step raises, a
    node is not registered), it starts at most [max_steps] steps: among
    the entries it appends to [history] at most [max_steps] are
    ["Executing: ..."] entries, which [execute_node] writes once before
    each call of a step; the steps that returned are among them. *)
Theorem executions_bounded (self : WorkflowEngine) (graph : GraphDefinition)
    (state : WorkflowState) :
  exists added,
    history (final_state (run_workflow self graph state)) = (history state ++ added)%list
    /\ List.length (filter (prefix "Executing: ") added) <= Z.to_nat (max_steps self)
    /\ List.length (executions self graph state)
       <= List.length (filter (prefix "Executing: ") added).
Proof.
  destruct (run_loop_started_steps self graph (Z.to_nat (max_steps self))
              (Some (start_node graph)) state) as [added [Hhist Hcount]].
  pose proof (run_loop_log_shape self graph (Z.to_nat (max_steps self))
                (Some (start_node graph)) state) as [entries [Hshape _]].
  rewrite run_loop_log_result in Hshape. rewrite Hhist in Hshape.
  apply app_inv_head in Hshape.
  assert (Hlog : List.length (executions self graph state) <= started_steps added).
  { unfold executions. rewrite Hshape, started_steps_app.
    assert (Hall : forall log, started_steps (executing_entries log) = List.length log).
    { induction log as [|[n o] log IHlog]; [reflexivity|].
      change (executing_entries ((n, o) :: log))
        with ([("Executing: " ++ n)%string] ++ executing_entries log)%list.
      rewrite started_steps_app, started_steps_executing, IHlog. reflexivity. }
    rewrite Hall. lia. }
  unfold run_workflow.
  destruct (run_loop self graph _ _ state) as [[] state'|e state'|b state'];
    cbn [final_state] in *.
  - exists (added ++ ["Workflow Completed."])%list. split; [|split].
    + cbn [history_append history]. now rewrite Hhist, <- app_assoc.
    + fold (started_steps (added ++ ["Workflow Completed."])).
      rewrite started_steps_app. cbn. lia.
    + fold (started_steps (added ++ ["Workflow Completed."])).
      rewrite started_steps_app. cbn. lia.
  - exists added. auto.
  - exists added. auto.
Qed.

(** X3. When [run_workflow] returns, what it appended to [history] is, in
    order: one ["Executing: <node>"] entry per executed node, then at most
    one entry telling why the loop was left (the max-steps entry or an
    unknown-outcome warning), then ["Workflow Completed."]. No other
    entry is written and no earlier entry is changed. *)
Theorem run_workflow_history_returned (self : WorkflowEngine) (graph : GraphDefinition)
    (state state' : WorkflowState) :
  run_workflow self graph state = Returned tt state' ->
  exists entries,
    history state'
    = (history state ++ executing_entries (executions self graph state)
       ++ entries ++ ["Workflow Completed."])%list
    /\ (entries = []
        \/ entries = [("Max steps (" ++ str_of_Z (max_steps self)
                       ++ ") reached. Terminating.")%string]
        \/ exists outcome,
             entries = [("Warning: Outcome '" ++ outcome
                         ++ "' not defined in edges for node. Ending workflow.")%string]).
Proof.
  unfold run_workflow, executions. rewrite <- run_loop_log_result.
  pose proof (run_loop_log_shape self graph (Z.to_nat (max_steps self))
                (Some (start_node graph)) state) as Hshape.
  destruct (run_loop_log self graph _ _ state) as [[[] state1|e state1|b state1] log];
    cbn [fst snd final_state loop_entries] in *; [|discriminate|discriminate].
  intro H. inversion H. subst state'.
  destruct Hshape as [entries [Hhist Hentries]].
  exists entries. split; [|exact Hentries].
  cbn [history_append history]. rewrite Hhist. now rewrite <- !app_assoc.
Qed.

Lemma run_workflow_history_returned_witness :
  exists entries,
    history (mkState [] ["Executing: a";
                         "Warning: Outcome 'next' not defined in edges for node. Ending workflow.";
                         "Workflow Completed."])
    = (executing_entries (executions noop_engine graph_unknown_outcome (mkState [] []))
       ++ entries ++ ["Workflow Completed."])%list.
Proof.
  destruct (run_workflow_history_returned noop_engine graph_unknown_outcome
              (mkState [] [])
              (mkState [] ["Executing: a";
                           "Warning: Outcome 'next' not defined in edges for node. Ending workflow.";
                           "Workflow Completed."])
              eq_refl) as [entries [H _]].
  exists entries. exact H.
Defined.

(** X4. When [run_workflow] raises [e], what it appended to [history] is
    one ["Executing: <node>"] entry per node whose step returned, followed
    either by nothing, when [e] is the not-found error of an unregistered
    node, or by ["Executing: <node>"] and ["Error in <node>: <str(e)>"]
    for the node whose step raised [e]. *)
Theorem run_workflow_history_raised (self : WorkflowEngine) (graph : GraphDefinition)
    (state state' : WorkflowState) (e : exn) :
  run_workflow self graph state = Raised e state' ->
  exists node entries,
    history state'
    = (history state ++ executing_entries (executions self graph state) ++ entries)%list
    /\ ((get node (registry self) = None
         /\ e = ValueError ("Node '" ++ node ++ "' not found in registry.")
         /\ entries = [])
        \/ entries = [("Executing: " ++ node)%string;
                      ("Error in " ++ node ++ ": " ++ exn_str e)%string]).
Proof.
  unfold run_workflow, executions. rewrite <- run_loop_log_result.
  pose proof (run_loop_log_shape self graph (Z.to_nat (max_steps self))
                (Some (start_node graph)) state) as Hshape.
  destruct (run_loop_log self graph _ _ state) as [[[] state1|e1 state1|b state1] log];
    cbn [fst snd final_state loop_entries] in *; [discriminate| |discriminate].
  intro H. inversion H. subst.
  destruct Hshape as [entries [Hhist [node Hentries]]].
  exists node, entries. split; assumption.
Qed.

Lemma run_workflow_history_raised_witness :
  exists node entries,
    history (mkState [("code", VStr three_defs);
                      ("functions", VList [VStr "def a():"; VStr "def b():"; VStr "def c():"]);
                      ("complexity_score", VInt 6);
                      ("issues", VList [VStr "Line 10: Too long"]);
                      ("suggestions", VStr "Refactor logic to reduce complexity");
                      ("quality_score", VInt 20)]
                     ["Executing: extract_functions"; "Executing: check_complexity";
                      "Executing: detect_issues"; "Executing: suggest_improvements";
                      "Executing: quality_gate"; "Error in quality_gate: 'history'"])
    = (history (mkState [("code", VStr three_defs)] [])
       ++ executing_entries (executions Nodes.engine code_review_graph
                                        (mkState [("code", VStr three_defs)] []))
       ++ entries)%list
    /\ ((get node (registry Nodes.engine) = None
         /\ KeyError "history" = ValueError ("Node '" ++ node ++ "' not found in registry.")
         /\ entries = [])
        \/ entries = [("Executing: " ++ node)%string;
                      ("Error in " ++ node ++ ": " ++ exn_str (KeyError "history"))%string]).
Proof.
  apply (run_workflow_history_raised Nodes.engine code_review_graph).
  vm_compute. reflexivity.
Defined.

(** *** Edge cases of the step cap and of the registry *)

(** X6. With a step cap of zero or less and a start node of non-empty
    name, [run_workflow] executes no node at all: it appends the max-steps
    entry and ["Workflow Completed."], leaves [data] untouched and
    returns. *)
Theorem nonpositive_cap_executes_nothing (self : WorkflowEngine) (graph : GraphDefinition)
    (state : WorkflowState) :
  (max_steps self <= 0)%Z ->
  start_node graph <> EmptyString ->
  run_workflow self graph state
  = Returned tt
      (mkState (data state)
               (history state
                ++ [("Max steps (" ++ str_of_Z (max_steps self) ++ ") reached. Terminating.")%string;
                    "Workflow Completed."]))
  /\ executions self graph state = [].
Proof.
  intros Hcap Hstart. apply String.eqb_neq in Hstart.
  unfold run_workflow, executions.
  replace (Z.to_nat (max_steps self)) with O by lia.
  simpl. rewrite Hstart. simpl. split; [|reflexivity].
  unfold history_append, max_steps_entry. cbn [history data].
  now rewrite <- app_assoc.
Qed.

Lemma nonpositive_cap_executes_nothing_witness :
  run_workflow (mkEngine [("a", noop_step); ("b", noop_step)] (-3)) graph_two_cycle
               (mkState [("k", VInt 1)] ["begin"])
  = Returned tt
      (mkState [("k", VInt 1)]
               ["begin"; "Max steps (-3) reached. Terminating."; "Workflow Completed."]).
Proof.
  apply (proj1 (nonpositive_cap_executes_nothing
                  (mkEngine [("a", noop_step); ("b", noop_step)] (-3)) graph_two_cycle
                  (mkState [("k", VInt 1)] ["begin"])
                  ltac:(vm_compute; discriminate) ltac:(discriminate))).
Defined.

(** X7. If the start node has a non-empty name that is not registered and
    the step cap is positive, the run fails before anything is executed:
    [run_workflow] raises the not-found error with the state untouched,
    and the background task leaves the run [FAILED], with that message as
    [error] and ["Workflow failed: ..."] as the only entry appended. *)
Theorem unregistered_start_node_fails (self : WorkflowEngine)
    (graphs : dict GraphDefinition) (graph : GraphDefinition) (run : WorkflowRun) :
  get (graph_id run) graphs = Some graph ->
  start_node graph <> EmptyString ->
  (0 < max_steps self)%Z ->
  get (start_node graph) (registry self) = None ->
  run_workflow self graph (state run)
  = Raised (ValueError ("Node '" ++ start_node graph ++ "' not found in registry."))
           (state run)
  /\ run_task self graphs run
     = mkRun (run_id run) (graph_id run) FAILED
         (mkState (data (state run))
                  (history (state run)
                   ++ [("Workflow failed: Node '" ++ start_node graph
                        ++ "' not found in registry.")%string]))
         (current_node run)
         (Some ("Node '" ++ start_node graph ++ "' not found in registry.")).
Proof.
  intros Hgraph Hstart Hcap Hreg. apply String.eqb_neq in Hstart.
  assert (Hrun : run_workflow self graph (state run)
                 = Raised (ValueError ("Node '" ++ start_node graph
                                       ++ "' not found in registry."))
                          (state run)).
  { unfold run_workflow.
    replace (Z.to_nat (max_steps self)) with (S (Z.to_nat (max_steps self - 1))) by lia.
    simpl. rewrite Hstart. simpl. unfold execute_node. now rewrite Hreg. }
  split; [exact Hrun|].
  unfold run_task. rewrite Hgraph, Hrun. reflexivity.
Qed.

Lemma unregistered_start_node_fails_witness :
  run_task noop_engine [("g", mkGraph ["deploy"] [] "deploy")]
           (mkRun "r" "g" PENDING (mkState [] []) None None)
  = mkRun "r" "g" FAILED
      (mkState [] ["Workflow failed: Node 'deploy' not found in registry."])
      None (Some "Node 'deploy' not found in registry.").
Proof.
  apply (proj2 (unregistered_start_node_fails noop_engine
                  [("g", mkGraph ["deploy"] [] "deploy")] (mkGraph ["deploy"] [] "deploy")
                  (mkRun "r" "g" PENDING (mkState [] []) None None)
                  eq_refl ltac:(discriminate) ltac:(vm_compute; reflexivity) eq_refl)).
Defined.

(** *** Validated graphs on a complete registry *)

Lemma GraphDefinition_init_inr (nodes_ : list string) (edges_ : dict edge_config)
    (start_node_ : string) (graph : GraphDefinition) :
  GraphDefinition_init nodes_ edges_ start_node_ = inr graph ->
  graph = mkGraph nodes_ edges_ start_node_
  /\ validate_edges edges_ nodes_ = None
  /\ In start_node_ nodes_.
Proof.
  unfold GraphDefinition_init, validate_start_node.
  destruct (validate_edges edges_ nodes_) as [msg|]; simpl; [discriminate|].
  destruct (contains start_node_ nodes_) eqn:Hstart; simpl; [|discriminate].
  intro H. inversion H. repeat split. now apply contains_In.
Qed.

(** In a validated graph every edge leads to a node of the graph or to
    the terminal marker. *)
Lemma validated_edges_closed (nodes_ : list string) (edges_ : dict edge_config) :
  validate_edges edges_ nodes_ = None ->
  forall node,
    match get node edges_ with
    | Some (Unconditional target) => In target nodes_
    | Some (Conditional m) => forall outcome dest, get outcome m = Some (Some dest) -> In dest nodes_
    | None => True
    end.
Proof.
  intros Hvalid node.
  assert (Hok : forall source target,
             In (source, target) edges_ -> ~ dangling nodes_ target).
  { intros source target Hin Hbad.
    assert (exists msg, validate_edges edges_ nodes_ = Some msg) as [msg Hmsg]
      by (apply validate_edges_fails; eauto).
    congruence. }
  destruct (get node edges_) as [[target|m]|] eqn:Hget; [| |exact I];
    apply get_In in Hget; specialize (Hok _ _ Hget); simpl in Hok.
  - destruct (in_dec string_dec target nodes_); [assumption | contradiction].
  - intros outcome dest Hdest. apply get_In in Hdest.
    destruct (in_dec string_dec dest nodes_); [assumption|].
    elim Hok. eauto.
Qed.

Lemma run_loop_raise_from_step (self : WorkflowEngine) (graph : GraphDefinition) :
  (forall node, In node (nodes graph) -> get node (registry self) <> None) ->
  (forall node,
     match get node (edges graph) with
     | Some (Unconditional target) => In target (nodes graph)
     | Some (Conditional m) =>
         forall outcome dest, get outcome m = Some (Some dest) -> In dest (nodes graph)
     | None => True
     end) ->
  forall left current_node state e state',
    (forall node, current_node = Some node -> In node (nodes graph)) ->
    run_loop self graph left current_node state = Raised e state' ->
    exists node func d d',
      In node (nodes graph)
      /\ get node (registry self) = Some func
      /\ func d = (d', Raises e).
Proof.
  intros Hreg Hclosed.
  induction left as [|left IH]; intros [node|] state e state' Hin; simpl;
    try discriminate.
  - destruct (negb (negb (node =? EmptyString))); discriminate.
  - destruct (negb (negb (node =? EmptyString))); [discriminate|].
    specialize (Hin node eq_refl).
    destruct (execute_node self node state) as [outcome state1|e1 state1|b state1] eqn:Hexec;
      [| |discriminate].
    2:{ intro H. inversion H. subst.
        apply execute_node_raised in Hexec.
        destruct Hexec as [(Hnone & _)|[_ [func [Hfunc Hcall]]]].
        - elim (Hreg node Hin Hnone).
        - exists node, func, (data state), (data state'). auto. }
    destruct (negb (edge_truthy (get node (edges graph)))); [discriminate|].
    specialize (Hclosed node).
    destruct (get node (edges graph)) as [[target|m]|]; [| |discriminate].
    + apply IH. intros n Hn. inversion Hn. now subst.
    + destruct (is_None (get_target outcome m) && negb (mem outcome m)); [discriminate|].
      apply IH. intros n Hn. apply (Hclosed outcome n).
      unfold get_target in Hn. destruct (get outcome m) as [dest|]; [|discriminate].
      now subst.
Qed.

(** On a validated graph over a complete registry, only steps raise. *)
Lemma validated_run_raise_from_step (self : WorkflowEngine)
    (nodes_ : list string) (edges_ : dict edge_config) (start_node_ : string)
    (graph : GraphDefinition) (state state' : WorkflowState) (e : exn) :
  GraphDefinition_init nodes_ edges_ start_node_ = inr graph ->
  unregistered_nodes graph (registry self) = [] ->
  run_workflow self graph state = Raised e state' ->
  exists node func d d',
    In node (nodes graph)
    /\ get node (registry self) = Some func
    /\ func d = (d', Raises e).
Proof.
  intros Hinit Hreg Hrun.
  apply GraphDefinition_init_inr in Hinit. destruct Hinit as (-> & Hvalid & Hstart).
  unfold run_workflow in Hrun.
  destruct (run_loop _ _ _ _ state) as [[] state1|e1 state1|b state1] eqn:Hloop;
    [discriminate| |discriminate].
  inversion Hrun. subst.
  eapply run_loop_raise_from_step; [| |  | exact Hloop].
  - intros node Hin Hnone.
    assert (In node (unregistered_nodes (mkGraph nodes_ edges_ start_node_) (registry self)))
      by (apply unregistered_nodes_In; auto).
    rewrite Hreg in H. exact H.
  - exact (validated_edges_closed nodes_ edges_ Hvalid).
  - intros node Hnode. inversion Hnode. subst. exact Hstart.
Qed.

Lemma run_loop_abort_from_step (self : WorkflowEngine) (graph : GraphDefinition) :
  (forall node,
     match get node (edges graph) with
     | Some (Unconditional target) => In target (nodes graph)
     | Some (Conditional m) =>
         forall outcome dest, get outcome m = Some (Some dest) -> In dest (nodes graph)
     | None => True
     end) ->
  forall left current_node state b state',
    (forall node, current_node = Some node -> In node (nodes graph)) ->
    run_loop self graph left current_node state = Aborted b state' ->
    exists node func d d',
      In node (nodes graph)
      /\ get node (registry self) = Some func
      /\ func d = (d', Aborts b).
Proof.
  intros Hclosed.
  induction left as [|left IH]; intros [node|] state b state' Hin; simpl;
    try discriminate.
  - destruct (negb (negb (node =? EmptyString))); discriminate.
  - destruct (negb (negb (node =? EmptyString))); [discriminate|].
    specialize (Hin node eq_refl).
    destruct (execute_node self node state) as [outcome state1|e1 state1|b1 state1] eqn:Hexec;
      [|discriminate|].
    2:{ intro H. inversion H. subst.
        apply execute_node_aborted in Hexec.
        destruct Hexec as [_ [func [Hfunc Hcall]]].
        exists node, func, (data state), (data state'). auto. }
    destruct (negb (edge_truthy (get node (edges graph)))); [discriminate|].
    specialize (Hclosed node).
    destruct (get node (edges graph)) as [[target|m]|]; [| |discriminate].
    + apply IH. intros n Hn. inversion Hn. now subst.
    + destruct (is_None (get_target outcome m) && negb (mem outcome m)); [discriminate|].
      apply IH. intros n Hn. apply (Hclosed outcome n).
      unfold get_target in Hn. destruct (get outcome m) as [dest|]; [|discriminate].
      now subst.
Qed.

(** On a validated graph, a [BaseException] that leaves the traversal was
    raised by the registered step of a node of the graph. *)
Lemma validated_run_abort_from_step (self : WorkflowEngine)
    (nodes_ : list string) (edges_ : dict edge_config) (start_node_ : string)
    (graph : GraphDefinition) (state state' : WorkflowState) (b : base_exn) :
  GraphDefinition_init nodes_ edges_ start_node_ = inr graph ->
  run_workflow self graph state = Aborted b state' ->
  exists node func d d',
    In node (nodes graph)
    /\ get node (registry self) = Some func
    /\ func d = (d', Aborts b).
Proof.
  intros Hinit Hrun.
  apply GraphDefinition_init_inr in Hinit. destruct Hinit as (-> & Hvalid & Hstart).
  unfold run_workflow in Hrun.
  destruct (run_loop _ _ _ _ state) as [[] state1|e1 state1|b1 state1] eqn:Hloop;
    [discriminate|discriminate|].
  inversion Hrun. subst.
  eapply run_loop_abort_from_step; [| | exact Hloop].
  - exact (validated_edges_closed nodes_ edges_ Hvalid).
  - intros node Hnode. inversion Hnode. subst. exact Hstart.
Qed.

(** X5. For a graph that passed validation and whose nodes are all keys
    of the registry (what [run_graph] checks at submission), the
    traversal never reaches an unregistered node: an exception that
    [run_workflow] raises was raised by the registered step of a node of
    the graph. *)
Theorem accepted_graph_fails_only_in_steps (self : WorkflowEngine)
    (nodes_ : list string) (edges_ : dict edge_config) (start_node_ : string)
    (graph : GraphDefinition) (state state' : WorkflowState) (e : exn) :
  GraphDefinition_init nodes_ edges_ start_node_ = inr graph ->
  unregistered_nodes graph (registry self) = [] ->
  run_workflow self graph state = Raised e state' ->
  exists node func d d',
    In node (nodes graph)
    /\ get node (registry self) = Some func
    /\ func d = (d', Raises e).
Proof.
  exact (validated_run_raise_from_step self nodes_ edges_ start_node_ graph state state' e).
Qed.

Lemma accepted_graph_fails_only_in_steps_witness :
  exists node func d d',
    In node ["a"; "b"]
    /\ get node [("a", noop_step); ("b", failing_step)] = Some func
    /\ func d = (d', Raises (OtherException "RuntimeError" "boom")).
Proof.
  exact (accepted_graph_fails_only_in_steps
           (WorkflowEngine_init [("a", noop_step); ("b", failing_step)])
           ["a"; "b"] [("a", Unconditional "b"); ("b", Unconditional "a")] "a"
           graph_two_cycle (mkState [] [])
           (mkState [] ["Executing: a"; "Executing: b"; "Error in b: boom"])
           (OtherException "RuntimeError" "boom")
           eq_refl eq_refl eq_refl).
Defined.

(** *** Unknown outcomes *)

(** The loop writes a warning only for an outcome that some step returned
    and that is not a key of the conditional mapping of its node. *)
Lemma run_loop_log_warning (self : WorkflowEngine) (graph : GraphDefinition) (left : nat) :
  forall current_node state state' log,
    run_loop_log self graph left current_node state = (Returned tt state', log) ->
    exists entries,
      history state' = (history state ++ executing_entries log ++ entries)%list
      /\ (entries = []
          \/ entries = [max_steps_entry self]
          \/ exists node m func d d' result,
               entries = [warning_entry (outcome_label result)]
               /\ get node (edges graph) = Some (Conditional m)
               /\ get node (registry self) = Some func
               /\ func d = (d', Returns result)
               /\ mem (outcome_label result) m = false).
Proof.
  induction left as [|left IH]; intros [node|] state state2 log; simpl.
  - destruct (negb (negb (node =? EmptyString))); intro H; inversion H; subst.
    + exists []. split; [now rewrite !app_nil_r | now left].
    + exists [max_steps_entry self]. split; [reflexivity | right; now left].
  - intro H; inversion H; subst.
    exists []. split; [now rewrite !app_nil_r | now left].
  - destruct (negb (negb (node =? EmptyString))).
    { intro H; inversion H; subst.
      exists []. split; [now rewrite !app_nil_r | now left]. }
    destruct (execute_node self node state) as [outcome state1|e state1|b state1] eqn:Hexec;
      [|discriminate|discriminate].
    apply execute_node_returned in Hexec.
    destruct Hexec as [Hhist (func & result & Hreg & Hcall & ->)].
    assert (Hstop : exists entries,
               history state1
               = (history state
                  ++ executing_entries [(node, outcome_label result)] ++ entries)%list
               /\ (entries = []
                   \/ entries = [max_steps_entry self]
                   \/ exists node m func d d' result,
                        entries = [warning_entry (outcome_label result)]
                        /\ get node (edges graph) = Some (Conditional m)
                        /\ get node (registry self) = Some func
                        /\ func d = (d', Returns result)
                        /\ mem (outcome_label result) m = false)).
    { exists []. split; [|now left]. rewrite Hhist. reflexivity. }
    assert (Hnext : forall next rest,
               run_loop_log self graph left next state1 = (Returned tt state2, rest) ->
               exists entries,
                 history state2
                 = (history state
                    ++ executing_entries ((node, outcome_label result) :: rest)
                    ++ entries)%list
                 /\ (entries = []
                     \/ entries = [max_steps_entry self]
                     \/ exists node m func d d' result,
                          entries = [warning_entry (outcome_label result)]
                          /\ get node (edges graph) = Some (Conditional m)
                          /\ get node (registry self) = Some func
                          /\ func d = (d', Returns result)
                          /\ mem (outcome_label result) m = false)).
    { intros next rest Hrest. destruct (IH _ _ _ _ Hrest) as [entries [H Hentries]].
      exists entries. split; [|exact Hentries].
      rewrite H, Hhist. cbn [executing_entries map fst]. now rewrite <- app_assoc. }
    destruct (negb (edge_truthy (get node (edges graph)))).
    { cbn [fst snd]. intro H; inversion H; subst. exact Hstop. }
    destruct (get node (edges graph)) as [[target|m]|] eqn:Hedge.
    + cbn [fst snd].
      destruct (run_loop_log self graph left (Some target) state1)
        as [[[] state3|e state3|b state3] rest] eqn:Hrest; cbn [fst snd];
        intro H; inversion H; subst.
      exact (Hnext _ _ Hrest).
    + destruct (is_None (get_target (outcome_label result) m)
                && negb (mem (outcome_label result) m)) eqn:Hwarn; cbn [fst snd].
      * intro H; inversion H; subst.
        exists [warning_entry (outcome_label result)]. split.
        -- cbn [history_append history]. rewrite Hhist. cbn. now rewrite <- app_assoc.
        -- right. right.
           exists node, m, func, (data state), (data state1), result.
           repeat split; try assumption.
           apply andb_true_iff in Hwarn. destruct Hwarn as [_ Hmem].
           now apply negb_true_iff in Hmem.
      * destruct (run_loop_log self graph left (get_target (outcome_label result) m) state1)
          as [[[] state3|e state3|b state3] rest] eqn:Hrest; cbn [fst snd];
          intro H; inversion H; subst.
        exact (Hnext _ _ Hrest).
    + cbn [fst snd]. intro H; inversion H; subst. exact Hstop.
  - intro H; inversion H; subst.
    exists []. split; [now rewrite !app_nil_r | now left].
Qed.

(** Without unhandled outcomes no warning is written. *)
Lemma handled_never_warn (self : WorkflowEngine) (graph : GraphDefinition)
    (state state' : WorkflowState) :
  outcomes_handled self graph ->
  run_workflow self graph state = Returned tt state' ->
  exists entries,
    history state'
    = (history state ++ executing_entries (executions self graph state)
       ++ entries ++ ["Workflow Completed."])%list
    /\ (entries = []
        \/ entries = [("Max steps (" ++ str_of_Z (max_steps self)
                       ++ ") reached. Terminating.")%string]).
Proof.
  intros Hhandled. unfold run_workflow, executions. rewrite <- run_loop_log_result.
  destruct (run_loop_log self graph _ _ state) as [[[] state1|e state1|b state1] log] eqn:Hlog;
    cbn [fst snd]; [|discriminate|discriminate].
  intro H. inversion H. subst state'.
  destruct (run_loop_log_warning _ _ _ _ _ _ _ Hlog) as [entries [Hhist Hentries]].
  exists entries. split.
  - cbn [history_append history]. rewrite Hhist. now rewrite <- !app_assoc.
  - destruct Hentries as [H1|[H1|(node & m & func & d & d' & result & _ & He & Hr & Hc & Hm)]];
      [now left | now right |].
    rewrite (Hhandled node m func d d' result He Hr Hc) in Hm. discriminate.
Qed.

(** X8. If every outcome that the step of a conditional node can return
    is a key of the node's mapping, [run_workflow] never writes the
    unknown-outcome warning: when it returns, the entries after the
    ["Executing: ..."] ones are at most the max-steps entry, then
    ["Workflow Completed."]. *)
Theorem handled_outcomes_never_warn (self : WorkflowEngine) (graph : GraphDefinition)
    (state state' : WorkflowState) :
  outcomes_handled self graph ->
  run_workflow self graph state = Returned tt state' ->
  exists entries,
    history state'
    = (history state ++ executing_entries (executions self graph state)
       ++ entries ++ ["Workflow Completed."])%list
    /\ (entries = []
        \/ entries = [("Max steps (" ++ str_of_Z (max_steps self)
                       ++ ") reached. Terminating.")%string]).
Proof.
  exact (handled_never_warn self graph state state').
Qed.

(* ================================================================= *)
(** ** Further properties of the run lifecycle and of the endpoints *)

Lemma run_workflow_returned_last (self : WorkflowEngine) (graph : GraphDefinition)
    (state state' : WorkflowState) (u : unit) :
  run_workflow self graph state = Returned u state' ->
  last (history state') EmptyString = "Workflow Completed.".
Proof.
  unfold run_workflow.
  destruct (run_loop self graph _ _ state) as [[] state1|e state1|b state1];
    [|discriminate|discriminate].
  intro H. inversion H. cbn [history_append history]. apply last_last.
Qed.

(** How the background task leaves a run, by the way the traversal ends. *)
Lemma run_task_cases (engine : WorkflowEngine) (graphs : dict GraphDefinition)
    (run : WorkflowRun) :
  run_id (run_task engine graphs run) = run_id run
  /\ graph_id (run_task engine graphs run) = graph_id run
  /\ current_node (run_task engine graphs run) = current_node run
  /\ ((status (run_task engine graphs run) = COMPLETED
       /\ error (run_task engine graphs run) = error run
       /\ run_task_escape engine graphs run = None
       /\ last (history (state (run_task engine graphs run))) EmptyString
          = "Workflow Completed.")
      \/ (status (run_task engine graphs run) = FAILED
          /\ run_task_escape engine graphs run = None
          /\ exists msg,
               error (run_task engine graphs run) = Some msg
               /\ last (history (state (run_task engine graphs run))) EmptyString
                  = "Workflow failed: " ++ msg)
      \/ (status (run_task engine graphs run) = RUNNING
          /\ error (run_task engine graphs run) = error run
          /\ exists b, run_task_escape engine graphs run = Some b)).
Proof.
  unfold run_task, run_task_escape.
  destruct (get (graph_id run) graphs) as [graph|].
  - destruct (run_workflow engine graph (state run)) as [u st|e st|b st] eqn:Hrun;
      cbn [run_id graph_id current_node status error state]; repeat split.
    + left. repeat split. exact (run_workflow_returned_last _ _ _ _ _ Hrun).
    + right. left. split; [reflexivity|]. split; [reflexivity|].
      exists (exn_str e). split; [reflexivity|].
      cbn [history_append history]. apply last_last.
    + right. right. repeat split. now exists b.
  - cbn [run_id graph_id current_node status error state]. repeat split.
    right. left. split; [reflexivity|]. split; [reflexivity|].
    exists (exn_str (KeyError (graph_id run))).
    split; [reflexivity|]. cbn [history_append history]. apply last_last.
Qed.

(** X9. A step that raises a [BaseException] outside [Exception] leaves
    its run stuck. Whenever the traversal ends on such an exception, the
    background task leaves the run with status [RUNNING] and with [error]
    as it was, and the exception leaves the task uncaught; what was
    appended to [history] is one ["Executing: <node>"] entry per node
    whose step returned and then the ["Executing: <node>"] entry of the
    node whose step raised: no ["Error in ..."], no
    ["Workflow failed: ..."] and no ["Workflow Completed."] entry. *)
Theorem aborted_run_stays_running (engine : WorkflowEngine) (graphs : dict GraphDefinition)
    (graph : GraphDefinition) (run : WorkflowRun) (b : base_exn) (state' : WorkflowState) :
  get (graph_id run) graphs = Some graph ->
  run_workflow engine graph (state run) = Aborted b state' ->
  run_task engine graphs run
  = mkRun (run_id run) (graph_id run) RUNNING state' (current_node run) (error run)
  /\ run_task_escape engine graphs run = Some b
  /\ exists node,
       history state'
       = (history (state run)
          ++ executing_entries (executions engine graph (state run))
          ++ [("Executing: " ++ node)%string])%list.
Proof.
  intros Hgraph Hrun.
  unfold run_task, run_task_escape. rewrite Hgraph, Hrun.
  split; [reflexivity|]. split; [reflexivity|].
  revert Hrun. unfold run_workflow, executions. rewrite <- run_loop_log_result.
  pose proof (run_loop_log_shape engine graph (Z.to_nat (max_steps engine))
                (Some (start_node graph)) (state run)) as Hshape.
  destruct (run_loop_log engine graph _ _ (state run)) as [[[] state1|e state1|b1 state1] log];
    cbn [fst snd final_state loop_entries] in *; [discriminate|discriminate|].
  intro H. inversion H. subst.
  destruct Hshape as [entries [Hhist [node ->]]].
  exists node. exact Hhist.
Qed.

Lemma aborted_run_stays_running_witness :
  run_task (WorkflowEngine_init [("a", noop_step); ("b", aborting_step)])
           [("g", graph_two_cycle)]
           (mkRun "r" "g" PENDING (mkState [("k", VInt 1)] []) None None)
  = mkRun "r" "g" RUNNING (mkState [("k", VInt 1)] ["Executing: a"; "Executing: b"]) None None
  /\ run_task_escape (WorkflowEngine_init [("a", noop_step); ("b", aborting_step)])
                     [("g", graph_two_cycle)]
                     (mkRun "r" "g" PENDING (mkState [("k", VInt 1)] []) None None)
     = Some (BaseException "SystemExit" "1").
Proof.
  destruct (aborted_run_stays_running
              (WorkflowEngine_init [("a", noop_step); ("b", aborting_step)])
              [("g", graph_two_cycle)] graph_two_cycle
              (mkRun "r" "g" PENDING (mkState [("k", VInt 1)] []) None None)
              (BaseException "SystemExit" "1")
              (mkState [("k", VInt 1)] ["Executing: a"; "Executing: b"])
              eq_refl eq_refl) as (H1 & H2 & _).
  split; assumption.
Defined.

Lemma keys_set_present {V : Type} (k : string) (v : V) (d : dict V) :
  get k d <> None -> map fst (set k v d) = map fst d.
Proof.
  induction d as [|[k0 v0] d IH]; simpl; [congruence|].
  destruct (k0 =? k) eqn:Hk; simpl; [reflexivity|].
  intro H. now rewrite IH.
Qed.

(** X10. [run_workflow_background] raises a [KeyError] exactly when the
    run id is not in [runs_db]. Otherwise it replaces the run stored
    under that id by the finished run and changes nothing else: every
    other id keeps its run, and no key is added, removed or moved. *)
Theorem run_workflow_background_effect (engine : WorkflowEngine)
    (graphs : dict GraphDefinition) (runs : dict WorkflowRun) (id : string) :
  (get id runs = None ->
   run_workflow_background engine graphs runs id = inl (KeyError id))
  /\ (forall run, get id runs = Some run ->
        exists runs',
          run_workflow_background engine graphs runs id = inr runs'
          /\ get id runs' = Some (run_task engine graphs run)
          /\ (forall other, other <> id -> get other runs' = get other runs)
          /\ map fst runs' = map fst runs).
Proof.
  unfold run_workflow_background. split.
  - intros ->. reflexivity.
  - intros run Hrun. rewrite Hrun. eexists. split; [reflexivity|]. split; [|split].
    + apply get_set_same.
    + intros other Hne. apply get_set_other. congruence.
    + apply keys_set_present. congruence.
Qed.

Lemma run_workflow_background_effect_witness :
  run_workflow_background noop_engine [] [] "r-9" = inl (KeyError "r-9").
Proof.
  apply (proj1 (run_workflow_background_effect noop_engine [] [] "r-9")).
  reflexivity.
Defined.

(** X11. Once [run_graph] has accepted a submission, polling sees the
    run [PENDING] with the submitted data and an empty history; the
    scheduled task then finds the run, and when the task is over polling
    sees the same run id and graph id, [current_node] still unset, and
    one of three things: status [COMPLETED] with no error; status
    [FAILED] with an error message; or, when a [BaseException] outside
    [Exception] left the task uncaught, status [RUNNING] with no error. *)
Theorem submitted_run_lifecycle (engine : WorkflowEngine) (a a' : stores) (uuid4 : string)
    (request : RunGraphRequest.t) (response : RunGraphResponse.t) :
  run_graph a uuid4 request = inr (response, a') ->
  get_run_state a' uuid4
  = inr (mkRun uuid4 (RunGraphRequest.graph_id request) PENDING
               (mkState (RunGraphRequest.initial_state request) []) None None)
  /\ exists runs run,
       run_workflow_background engine (graphs_db a') (runs_db a') uuid4 = inr runs
       /\ get_run_state (mkStores (graphs_db a') runs (tool_registry a') []) uuid4 = inr run
       /\ run_id run = uuid4
       /\ graph_id run = RunGraphRequest.graph_id request
       /\ current_node run = None
       /\ ((status run = COMPLETED /\ error run = None
            /\ last (history (state run)) EmptyString = "Workflow Completed.")
           \/ (status run = FAILED
               /\ exists msg,
                    error run = Some msg
                    /\ last (history (state run)) EmptyString = "Workflow failed: " ++ msg)
           \/ (status run = RUNNING /\ error run = None
               /\ exists b,
                    run_task_escape engine (graphs_db a')
                      (mkRun uuid4 (RunGraphRequest.graph_id request) PENDING
                             (mkState (RunGraphRequest.initial_state request) []) None None)
                    = Some b)).
Proof.
  unfold run_graph.
  destruct (get (RunGraphRequest.graph_id request) (graphs_db a)) as [graph|] eqn:Hgraph;
    [|discriminate].
  destruct (unregistered_nodes graph (tool_registry a)); [|discriminate].
  intro H. inversion H. subst. clear H.
  unfold get_run_state, run_workflow_background. cbn [runs_db graphs_db].
  rewrite get_set_same. split; [reflexivity|].
  eexists. eexists. split; [reflexivity|]. rewrite get_set_same.
  split; [reflexivity|].
  pose proof (run_task_cases engine (graphs_db a)
                (mkRun uuid4 (RunGraphRequest.graph_id request) PENDING
                       (mkState (RunGraphRequest.initial_state request) []) None None))
    as (Hid & Hgid & Hcur & Hstatus).
  split; [exact Hid|]. split; [exact Hgid|]. split; [exact Hcur|].
  destruct Hstatus as [(Hs & He & _ & Hlast)|[(Hs & _ & msg & He & Hlast)|(Hs & He & b & Hb)]].
  - left. auto.
  - right. left. eauto.
  - right. right. eauto.
Qed.

Lemma submitted_run_lifecycle_witness :
  exists runs run,
    run_workflow_background Nodes.engine
      [("code-review-agent", code_review_graph)]
      [("run-1", mkRun "run-1" "code-review-agent" PENDING (mkState [] []) None None)]
      "run-1" = inr runs
    /\ get_run_state (mkStores [("code-review-agent", code_review_graph)] runs
                               Nodes.tool_registry []) "run-1" = inr run
    /\ current_node run = None.
Proof.
  destruct (submitted_run_lifecycle Nodes.engine
              (mkStores [("code-review-agent", code_review_graph)] [] Nodes.tool_registry [])
              (mkStores [("code-review-agent", code_review_graph)]
                 [("run-1", mkRun "run-1" "code-review-agent" PENDING (mkState [] []) None None)]
                 Nodes.tool_registry ["run-1"])
              "run-1" (RunGraphRequest.mk "code-review-agent" [])
              (RunGraphResponse.mk "run-1" "Submitted") eq_refl)
    as (_ & runs & run & Hbg & Hget & _ & _ & Hcur & _).
  exists runs, run. auto.
Defined.

(** *** Graph creation *)

Lemma well_formed_init (nodes_ : list string) (edges_ : dict edge_config)
    (start_node_ : string) :
  well_formed nodes_ edges_ start_node_ ->
  GraphDefinition_init nodes_ edges_ start_node_ = inr (mkGraph nodes_ edges_ start_node_).
Proof.
  intros [Hstart Hedges]. unfold GraphDefinition_init, validate_start_node.
  apply contains_In in Hstart. rewrite Hstart.
  destruct (validate_edges edges_ nodes_) as [msg|] eqn:Hv; [|reflexivity].
  assert (exists m, validate_edges edges_ nodes_ = Some m) as Hfail by eauto.
  apply validate_edges_fails in Hfail.
  destruct Hfail as (source & target & Hin & Hbad).
  destruct (Hedges source target Hin) as [Hs Ht]. tauto.
Qed.

Lemma init_well_formed (nodes_ : list string) (edges_ : dict edge_config)
    (start_node_ : string) (graph : GraphDefinition) :
  GraphDefinition_init nodes_ edges_ start_node_ = inr graph ->
  well_formed nodes_ edges_ start_node_.
Proof.
  intro H. apply GraphDefinition_init_inr in H. destruct H as (_ & Hv & Hstart).
  split; [exact Hstart|].
  intros source target Hin.
  assert (Hno : ~ (~ In source nodes_ \/ dangling nodes_ target)).
  { intro Hbad.
    assert (exists msg, validate_edges edges_ nodes_ = Some msg) as [msg Hmsg]
      by (apply validate_edges_fails; eauto).
    congruence. }
  split; [|tauto].
  destruct (in_dec string_dec source nodes_); tauto.
Qed.

(** X12. [create_graph] answers 400 and stores nothing unless the start
    node and every edge source are in [nodes] and no edge destination
    other than the terminal marker is outside [nodes]. In that case it
    answers with the fresh id, stores the graph under that id, keeps every
    other graph, and touches neither the runs, the registry nor the
    scheduled tasks; no node needs to be registered, reachable or even to
    have an edge. *)
Theorem create_graph_effect (error_text : ValidationError -> string) (a : stores)
    (uuid4 : string) (request : CreateGraphRequest.t) :
  let nodes_ := CreateGraphRequest.nodes request in
  let edges_ := CreateGraphRequest.edges request in
  let start_node_ := CreateGraphRequest.start_node request in
  (well_formed nodes_ edges_ start_node_ ->
   exists a',
     create_graph error_text a uuid4 request
     = inr (CreateGraphResponse.mk uuid4 "Graph created successfully", a')
     /\ get uuid4 (list_graphs a') = Some (mkGraph nodes_ edges_ start_node_)
     /\ (forall other, other <> uuid4 -> get other (list_graphs a') = get other (list_graphs a))
     /\ runs_db a' = runs_db a
     /\ tool_registry a' = tool_registry a
     /\ background_tasks a' = background_tasks a)
  /\ (~ well_formed nodes_ edges_ start_node_ ->
      exists detail,
        create_graph error_text a uuid4 request = inl (HTTPException.mk 400 detail)).
Proof.
  cbv zeta. unfold create_graph. split.
  - intro Hwf. rewrite (well_formed_init _ _ _ Hwf).
    eexists. split; [reflexivity|]. unfold list_graphs. cbn.
    repeat split.
    + apply get_set_same.
    + intros other Hne. apply get_set_other. congruence.
  - intro Hnot.
    destruct (GraphDefinition_init _ _ _) as [errors|graph] eqn:Hinit.
    + eauto.
    + elim Hnot. exact (init_well_formed _ _ _ _ Hinit).
Qed.

Lemma create_graph_effect_witness :
  (exists a',
     create_graph count_errors (mkStores [] [] Nodes.tool_registry []) "g-1"
       (CreateGraphRequest.mk ["lint"] [] "lint")
     = inr (CreateGraphResponse.mk "g-1" "Graph created successfully", a')
     /\ get "g-1" (list_graphs a') = Some (mkGraph ["lint"] [] "lint"))
  /\ exists detail,
       create_graph count_errors (mkStores [] [] Nodes.tool_registry []) "g-2"
         (CreateGraphRequest.mk ["lint"] [("lint", Unconditional "deploy")] "lint")
       = inl (HTTPException.mk 400 detail).
Proof.
  split.
  - destruct (proj1 (create_graph_effect count_errors
                       (mkStores [] [] Nodes.tool_registry []) "g-1"
                       (CreateGraphRequest.mk ["lint"] [] "lint")))
      as (a' & H1 & H2 & _).
    + split; [simpl; auto | intros source target []].
    + exists a'. auto.
  - apply (proj2 (create_graph_effect count_errors
                    (mkStores [] [] Nodes.tool_registry []) "g-2"
                    (CreateGraphRequest.mk ["lint"] [("lint", Unconditional "deploy")] "lint"))).
    intros [_ Hedges].
    destruct (Hedges "lint" (Unconditional "deploy") (or_introl eq_refl)) as [_ Hbad].
    apply Hbad. simpl. intros [H|[]]. discriminate.
Defined.

(** X13. From creation to the end of the run. A graph accepted by
    [create_graph] whose nodes are all registered is accepted by
    [run_graph] under the id it was given; the background task, run by an
    engine over the same registry, finds the run and the graph, and the
    run is left [COMPLETED], or [FAILED] with, as [error], the text of an
    [Exception] raised by the registered step of a node of the graph, or
    [RUNNING] with no error after the registered step of a node of the
    graph raised a [BaseException] outside [Exception]: never with a
    not-found error for a graph, a run or a node. *)
Theorem created_graph_run (error_text : ValidationError -> string) (engine : WorkflowEngine)
    (a a1 : stores) (gid rid : string) (request : CreateGraphRequest.t)
    (response : CreateGraphResponse.t) (initial_state : dict value) :
  create_graph error_text a gid request = inr (response, a1) ->
  registry engine = tool_registry a ->
  (forall node, In node (CreateGraphRequest.nodes request) ->
                get node (tool_registry a) <> None) ->
  exists a2 runs run,
    run_graph a1 rid (RunGraphRequest.mk gid initial_state)
    = inr (RunGraphResponse.mk rid "Submitted", a2)
    /\ run_workflow_background engine (graphs_db a2) (runs_db a2) rid = inr runs
    /\ get rid runs = Some run
    /\ ((status run = COMPLETED /\ error run = None)
        \/ (status run = FAILED
            /\ exists node func d d' e,
                 In node (CreateGraphRequest.nodes request)
                 /\ get node (registry engine) = Some func
                 /\ func d = (d', Raises e)
                 /\ error run = Some (exn_str e))
        \/ (status run = RUNNING /\ error run = None
            /\ exists node func d d' b,
                 In node (CreateGraphRequest.nodes request)
                 /\ get node (registry engine) = Some func
                 /\ func d = (d', Aborts b))).
Proof.
  unfold create_graph. intros Hcreate Hregistry Hregistered.
  destruct (GraphDefinition_init _ _ _) as [errors|graph] eqn:Hinit; [discriminate|].
  inversion Hcreate. subst response a1. clear Hcreate.
  pose proof (GraphDefinition_init_inr _ _ _ _ Hinit) as (Hgraph & _ & _).
  assert (Hmissing : unregistered_nodes graph (tool_registry a) = []).
  { destruct (unregistered_nodes graph (tool_registry a)) as [|node rest] eqn:Hm;
      [reflexivity|].
    assert (Hin : In node (unregistered_nodes graph (tool_registry a)))
      by (rewrite Hm; now left).
    apply unregistered_nodes_In in Hin. destruct Hin as [Hin Hnone].
    rewrite Hgraph in Hin. cbn [nodes] in Hin. elim (Hregistered node Hin Hnone). }
  unfold run_graph. cbn [RunGraphRequest.graph_id RunGraphRequest.initial_state
                         graphs_db runs_db tool_registry background_tasks].
  rewrite get_set_same, Hmissing.
  eexists. eexists. eexists. split; [reflexivity|].
  unfold run_workflow_background. cbn [graphs_db runs_db].
  rewrite get_set_same. split; [reflexivity|].
  rewrite get_set_same. split; [reflexivity|].
  unfold run_task. cbn [graph_id state]. rewrite get_set_same.
  destruct (run_workflow engine graph (mkState initial_state [])) as [u st|e st|b st] eqn:Hrun.
  - left. split; reflexivity.
  - right. left. split; [reflexivity|].
    rewrite <- Hregistry in Hmissing.
    destruct (validated_run_raise_from_step engine _ _ _ graph _ _ e
                Hinit Hmissing Hrun) as (node & func & d & d' & Hin & Hfunc & Hcall).
    exists node, func, d, d', e. repeat split; try assumption.
    rewrite Hgraph in Hin. exact Hin.
  - right. right. split; [reflexivity|]. split; [reflexivity|].
    destruct (validated_run_abort_from_step engine _ _ _ graph _ _ b Hinit Hrun)
      as (node & func & d & d' & Hin & Hfunc & Hcall).
    exists node, func, d, d', b. repeat split; try assumption.
    rewrite Hgraph in Hin. exact Hin.
Qed.

Lemma created_graph_run_witness :
  exists a2 runs run,
    run_graph (mkStores [("g-1", mkGraph ["check_complexity"] [] "check_complexity")] []
                        Nodes.tool_registry [])
              "r-1" (RunGraphRequest.mk "g-1" [])
    = inr (RunGraphResponse.mk "r-1" "Submitted", a2)
    /\ run_workflow_background Nodes.engine (graphs_db a2) (runs_db a2) "r-1" = inr runs
    /\ get "r-1" runs = Some run.
Proof.
  destruct (created_graph_run count_errors Nodes.engine
              (mkStores [] [] Nodes.tool_registry [])
              (mkStores [("g-1", mkGraph ["check_complexity"] [] "check_complexity")] []
                        Nodes.tool_registry [])
              "g-1" "r-1"
              (CreateGraphRequest.mk ["check_complexity"] [] "check_complexity")
              (CreateGraphResponse.mk "g-1" "Graph created successfully") []
              eq_refl eq_refl)
    as (a2 & runs & run & H1 & H2 & H3 & _).
  - intros node [<-|[]]. discriminate.
  - exists a2, runs, run. auto.
Defined.

(** X14. Submitting a run under an id that is not yet in [runs_db] makes
    the health check count exactly one more run, and leaves its counts of
    graphs and of tools, its status and its message as they were. *)
Theorem root_after_run_graph (a a' : stores) (uuid4 : string)
    (request : RunGraphRequest.t) (response : RunGraphResponse.t) :
  run_graph a uuid4 request = inr (response, a') ->
  get uuid4 (runs_db a) = None ->
  root a'
  = set "runs_count" (VInt (Z.of_nat (List.length (runs_db a)) + 1)) (root a).
Proof.
  unfold run_graph.
  destruct (get (RunGraphRequest.graph_id request) (graphs_db a)); [|discriminate].
  destruct (unregistered_nodes g (tool_registry a)); [|discriminate].
  intros H Hfresh. inversion H. subst. clear H.
  unfold root. cbn [graphs_db runs_db tool_registry set String.eqb Ascii.eqb Bool.eqb].
  rewrite length_set. unfold mem. rewrite Hfresh.
  rewrite Nat2Z.inj_succ. unfold Z.succ. reflexivity.
Qed.

Lemma root_after_run_graph_witness :
  root (mkStores [("code-review-agent", code_review_graph)]
                 [("run-1", mkRun "run-1" "code-review-agent" PENDING (mkState [] []) None None)]
                 Nodes.tool_registry ["run-1"])
  = [("status", VStr "running"); ("message", VStr "Mini Agent Workflow Engine");
     ("graphs_count", VInt 1); ("runs_count", VInt 1); ("tools_count", VInt 5)].
Proof.
  exact (root_after_run_graph
           (mkStores [("code-review-agent", code_review_graph)] [] Nodes.tool_registry [])
           _ "run-1" (RunGraphRequest.mk "code-review-agent" [])
           (RunGraphResponse.mk "run-1" "Submitted") eq_refl eq_refl).
Defined.

(* ================================================================= *)
(** ** Further properties of the registered steps and of the preloaded graph *)

(** X15. For any working data whose [code] is a string (or is absent,
    which reads as the empty string), [extract_functions] followed by
    [check_complexity] never raises, stores under ["functions"] the lines
    of [code] that contain ["def "], stores under ["complexity_score"]
    twice their number, and changes no other key. When [code] is present
    and is not a string, [extract_functions] raises an [AttributeError]
    and leaves the data untouched. *)
Theorem extract_then_check (d : dict value) :
  (forall code, get_default "code" (VStr EmptyString) d = VStr code ->
     exists d1 d2,
       node_extract_functions d = (d1, Returns VNone)
       /\ node_check_complexity d1 = (d2, Returns VNone)
       /\ get "functions" d2 = Some (VList (map VStr (def_lines code)))
       /\ get "complexity_score" d2
          = Some (VInt (2 * Z.of_nat (List.length (def_lines code))))
       /\ forall k, k <> "functions" -> k <> "complexity_score" -> get k d2 = get k d)
  /\ (forall v, get "code" d = Some v -> (forall code, v <> VStr code) ->
        node_extract_functions d
        = (d, Raises (AttributeError ("'" ++ type_name v
                                      ++ "' object has no attribute 'split'")))).
Proof.
  split.
  - intros code Hcode. unfold node_extract_functions. rewrite Hcode.
    eexists. eexists. split; [reflexivity|].
    unfold node_check_complexity, get_default. rewrite get_set_same. cbn [len].
    split; [reflexivity|]. split; [|split].
    + rewrite get_set_other by discriminate. apply get_set_same.
    + rewrite get_set_same. rewrite length_map. f_equal. f_equal.
      fold (def_lines code). lia.
    + intros k Hf Hc. rewrite !get_set_other by congruence. reflexivity.
  - intros v Hv Hnot. unfold node_extract_functions, get_default. rewrite Hv.
    destruct v; try reflexivity. elim (Hnot s eq_refl).
Qed.

Lemma extract_then_check_witness :
  exists d1 d2,
    node_extract_functions [("code", VStr three_defs); ("author", VStr "me")]
    = (d1, Returns VNone)
    /\ node_check_complexity d1 = (d2, Returns VNone)
    /\ get "complexity_score" d2 = Some (VInt (2 * Z.of_nat (List.length (def_lines three_defs))))
    /\ get "author" d2 = Some (VStr "me").
Proof.
  destruct (proj1 (extract_then_check [("code", VStr three_defs); ("author", VStr "me")])
              three_defs eq_refl) as (d1 & d2 & H1 & H2 & _ & H4 & H5).
  exists d1, d2. repeat split; try assumption.
  rewrite (H5 "author") by discriminate. reflexivity.
Defined.

(** X16. [quality_gate] raises [KeyError('history')] whenever the working
    data has no ["history"] key, whatever the score, and leaves the data
    untouched. When ["history"] holds a list and the score is an integer
    (absent reads as 0), it appends exactly one entry
    ["Quality Gate: score=<score>"] to that list, changes no other key,
    and returns ["pass"] if the score is at least 80 and ["retry"]
    otherwise. *)
Theorem quality_gate_cases (d : dict value) :
  (get "history" d = None -> node_quality_gate d = (d, Raises (KeyError "history")))
  /\ (forall l z,
        get "history" d = Some (VList l) ->
        get_default "quality_score" (VInt 0) d = VInt z ->
        exists d',
          node_quality_gate d
          = (d', Returns (VStr (if (80 <=? z)%Z then "pass" else "retry")))
          /\ get "history" d'
             = Some (VList (l ++ [VStr ("Quality Gate: score=" ++ str_of_Z z)]))
          /\ forall k, k <> "history" -> get k d' = get k d).
Proof.
  unfold node_quality_gate. split.
  - intros ->. reflexivity.
  - intros l z Hl Hz. rewrite Hl, Hz. cbn [as_int str repr].
    eexists. split; [|split].
    + rewrite Z.geb_leb. reflexivity.
    + apply get_set_same.
    + intros k Hk. apply get_set_other. congruence.
Qed.

Lemma quality_gate_cases_witness :
  node_quality_gate [("quality_score", VInt 95)]
  = ([("quality_score", VInt 95)], Raises (KeyError "history"))
  /\ exists d',
       node_quality_gate [("history", VList []); ("quality_score", VInt 79)]
       = (d', Returns (VStr "retry"))
       /\ get "history" d' = Some (VList [VStr "Quality Gate: score=79"]).
Proof.
  split.
  - apply (proj1 (quality_gate_cases [("quality_score", VInt 95)])). reflexivity.
  - destruct (proj2 (quality_gate_cases [("history", VList []); ("quality_score", VInt 79)])
                [] 79%Z eq_refl eq_refl) as (d' & H1 & H2 & _).
    exists d'. split; assumption.
Defined.

Lemma outcomes_handled_code_review : outcomes_handled Nodes.engine code_review_graph.
Proof.
  intros node m func d d' result Hedge Hreg Hcall.
  unfold code_review_graph in Hedge. cbn [get edges] in Hedge.
  destruct ("extract_functions" =? node); [discriminate Hedge|].
  destruct ("check_complexity" =? node); [discriminate Hedge|].
  destruct ("detect_issues" =? node); [discriminate Hedge|].
  destruct ("suggest_improvements" =? node); [discriminate Hedge|].
  destruct ("quality_gate" =? node) eqn:Hnode; [|discriminate Hedge].
  apply String.eqb_eq in Hnode. subst node. inversion Hedge. subst m.
  change (get "quality_gate" (registry Nodes.engine)) with (Some node_quality_gate) in Hreg.
  inversion Hreg. subst func.
  unfold node_quality_gate in Hcall.
  destruct (get "history" d) as [[| | | |l|]|]; try discriminate Hcall.
  destruct (as_int (get_default "quality_score" (VInt 0) d)) as [z|];
    [|discriminate Hcall].
  inversion Hcall. destruct (z >=? 80)%Z; reflexivity.
Qed.

Lemma handled_outcomes_never_warn_witness :
  exists state' entries,
    run_workflow Nodes.engine code_review_graph
      (mkState [("code", VStr three_defs); ("history", VList [])] [])
    = Returned tt state'
    /\ history state'
       = (executing_entries
            (executions Nodes.engine code_review_graph
               (mkState [("code", VStr three_defs); ("history", VList [])] []))
          ++ entries ++ ["Workflow Completed."])%list
    /\ (entries = []
        \/ entries = [("Max steps (" ++ str_of_Z (max_steps Nodes.engine)
                       ++ ") reached. Terminating.")%string]).
Proof.
  destruct (run_workflow Nodes.engine code_review_graph
              (mkState [("code", VStr three_defs); ("history", VList [])] []))
    as [[] state'|e state'|b state'] eqn:Hrun.
  - destruct (handled_outcomes_never_warn Nodes.engine code_review_graph _ state'
                outcomes_handled_code_review Hrun) as [entries [H1 H2]].
    exists state', entries. auto.
  - exfalso. vm_compute in Hrun. discriminate Hrun.
  - exfalso. vm_compute in Hrun. discriminate Hrun.
Defined.

(** None of the five registered steps raises a [BaseException] outside
    [Exception]. *)
Lemma registered_steps_never_abort (node : string) (func : step) (d d' : dict value)
    (b : base_exn) :
  get node (registry Nodes.engine) = Some func ->
  func d = (d', Aborts b) ->
  False.
Proof.
  intros Hreg Hcall.
  change (registry Nodes.engine)
    with [("extract_functions", node_extract_functions);
          ("check_complexity", node_check_complexity);
          ("detect_issues", node_detect_issues);
          ("suggest_improvements", node_suggest_improvements);
          ("quality_gate", node_quality_gate)] in Hreg.
  cbn [get] in Hreg.
  destruct ("extract_functions" =? node);
    [|destruct ("check_complexity" =? node);
      [|destruct ("detect_issues" =? node);
        [|destruct ("suggest_improvements" =? node);
          [|destruct ("quality_gate" =? node); [|discriminate Hreg]]]]];
    inversion Hreg; subst func; clear Hreg.
  - unfold node_extract_functions in Hcall.
    destruct (get_default "code" (VStr EmptyString) d); discriminate Hcall.
  - unfold node_check_complexity in Hcall.
    destruct (len (get_default "functions" (VList []) d)); discriminate Hcall.
  - unfold node_detect_issues in Hcall.
    destruct (as_int (get_default "complexity_score" (VInt 0) d)); discriminate Hcall.
  - unfold node_suggest_improvements in Hcall.
    destruct (truthy (get_default "issues" VNone d)); [|discriminate Hcall].
    destruct (add_int _ 20); discriminate Hcall.
  - unfold node_quality_gate in Hcall.
    destruct (get "history" d) as [[| | | |l|]|]; try discriminate Hcall.
    destruct (as_int (get_default "quality_score" (VInt 0) d)); discriminate Hcall.
Qed.

(** X17. Whatever the initial state, a traversal of the preloaded graph
    by the registered steps never writes the unknown-outcome warning and
    never meets an unregistered node: when [run_workflow] returns, the
    entries after the ["Executing: ..."] ones are at most
    ["Max steps (50) reached. Terminating."], then
    ["Workflow Completed."]; when it raises, the exception was raised by
    one of the five registered steps; and no [BaseException] outside
    [Exception] ever leaves it. *)
Theorem code_review_graph_exits (state : WorkflowState) :
  match run_workflow Nodes.engine code_review_graph state with
  | Returned _ state' =>
      exists entries,
        history state'
        = (history state
           ++ executing_entries (executions Nodes.engine code_review_graph state)
           ++ entries ++ ["Workflow Completed."])%list
        /\ (entries = [] \/ entries = ["Max steps (50) reached. Terminating."])
  | Raised e state' =>
      exists node func d d',
        In node (nodes code_review_graph)
        /\ get node (registry Nodes.engine) = Some func
        /\ func d = (d', Raises e)
  | Aborted _ _ => False
  end.
Proof.
  destruct (run_workflow Nodes.engine code_review_graph state)
    as [[] state'|e state'|b state'] eqn:Hrun.
  - exact (handled_never_warn Nodes.engine code_review_graph state state'
             outcomes_handled_code_review Hrun).
  - exact (validated_run_raise_from_step Nodes.engine _ _ _ code_review_graph state state' e
             default_graph_valid code_review_graph_registered Hrun).
  - destruct (validated_run_abort_from_step Nodes.engine _ _ _ code_review_graph
                state state' b default_graph_valid Hrun)
      as (node & func & d & d' & _ & Hreg & Hcall).
    exact (registered_steps_never_abort node func d d' b Hreg Hcall).
Qed.

(** One iteration of the loop over an unconditional edge. *)
Lemma run_loop_unconditional (self : WorkflowEngine) (graph : GraphDefinition)
    (left : nat) (node target : string) (state : WorkflowState) :
  node <> EmptyString ->
  target <> EmptyString ->
  get node (edges graph) = Some (Unconditional target) ->
  run_loop self graph (S left) (Some node) state
  = match execute_node self node state with
    | Raised e state' => Raised e state'
    | Aborted b state' => Aborted b state'
    | Returned _ state' => run_loop self graph left (Some target) state'
    end.
Proof.
  intros Hnode Htarget Hedge.
  apply String.eqb_neq in Hnode. apply String.eqb_neq in Htarget.
  simpl. rewrite Hnode, Hedge. simpl. rewrite Htarget. reflexivity.
Qed.

(** An exception of [execute_node] leaves the loop at once. *)
Lemma run_loop_raised (self : WorkflowEngine) (graph : GraphDefinition)
    (left : nat) (node : string) (state state' : WorkflowState) (e : exn) :
  node <> EmptyString ->
  execute_node self node state = Raised e state' ->
  run_loop self graph (S left) (Some node) state = Raised e state'.
Proof.
  intros Hnode Hexec. apply String.eqb_neq in Hnode.
  simpl. rewrite Hnode, Hexec. reflexivity.
Qed.

(** A step that never stores ["history"] keeps the key absent. *)
Lemma execute_node_keeps_history_absent (name : string) (func : step)
    (state state' : WorkflowState) (outcome : string) :
  get name (registry Nodes.engine) = Some func ->
  (forall d d' r, func d = (d', r) -> get "history" d = None -> get "history" d' = None) ->
  get "history" (data state) = None ->
  execute_node Nodes.engine name state = Returned outcome state' ->
  get "history" (data state') = None.
Proof.
  intros Hreg Hkeep Habsent Hexec.
  apply execute_node_returned in Hexec.
  destruct Hexec as [_ (func' & result & Hreg' & Hcall & _)].
  rewrite Hreg in Hreg'. inversion Hreg'. subst func'.
  exact (Hkeep _ _ _ Hcall Habsent).
Qed.

Lemma extract_functions_keeps_history_absent (d d' : dict value) (r : step_result) :
  node_extract_functions d = (d', r) -> get "history" d = None -> get "history" d' = None.
Proof.
  unfold node_extract_functions.
  destruct (get_default "code" (VStr EmptyString) d); intros H Hd; inversion H; subst;
    try assumption.
  now rewrite get_set_other by discriminate.
Qed.

Lemma check_complexity_keeps_history_absent (d d' : dict value) (r : step_result) :
  node_check_complexity d = (d', r) -> get "history" d = None -> get "history" d' = None.
Proof.
  unfold node_check_complexity.
  destruct (len (get_default "functions" (VList []) d)); intros H Hd; inversion H; subst;
    try assumption.
  now rewrite get_set_other by discriminate.
Qed.

Lemma detect_issues_keeps_history_absent (d d' : dict value) (r : step_result) :
  node_detect_issues d = (d', r) -> get "history" d = None -> get "history" d' = None.
Proof.
  unfold node_detect_issues.
  destruct (as_int (get_default "complexity_score" (VInt 0) d)); intros H Hd;
    inversion H; subst; try assumption.
  now rewrite get_set_other by discriminate.
Qed.

Lemma suggest_improvements_keeps_history_absent (d d' : dict value) (r : step_result) :
  node_suggest_improvements d = (d', r) -> get "history" d = None -> get "history" d' = None.
Proof.
  unfold node_suggest_improvements.
  destruct (truthy (get_default "issues" VNone d)).
  - destruct (add_int _ 20); intros H Hd; inversion H; subst;
      now rewrite ?get_set_other by discriminate.
  - intros H Hd. inversion H. subst. now rewrite !get_set_other by discriminate.
Qed.

Lemma code_review_raises_without_history (state : WorkflowState) :
  get "history" (data state) = None ->
  exists e state', run_workflow Nodes.engine code_review_graph state = Raised e state'.
Proof.
  intro Habsent. unfold run_workflow.
  change (Z.to_nat (max_steps Nodes.engine)) with 50%nat.
  change (start_node code_review_graph) with "extract_functions".
  assert (Hraised : forall (r : result unit),
             (exists e st, r = Raised e st) ->
             exists e st,
               match r with
               | Returned _ st' => Returned tt (history_append st' "Workflow Completed.")
               | Raised e' st' => Raised e' st'
               | Aborted b' st' => Aborted b' st'
               end = Raised e st).
  { intros r (e & st & ->). eauto. }
  assert (Hnever : forall name (st st' : WorkflowState) b,
             execute_node Nodes.engine name st = Aborted b st' -> False).
  { intros name st st' b Hexec. apply execute_node_aborted in Hexec.
    destruct Hexec as [_ (func & Hreg & Hcall)].
    exact (registered_steps_never_abort _ _ _ _ _ Hreg Hcall). }
  apply Hraised. clear Hraised.
  rewrite (run_loop_unconditional Nodes.engine code_review_graph 49
             "extract_functions" "check_complexity" state)
    by (discriminate || reflexivity).
  destruct (execute_node Nodes.engine "extract_functions" state)
    as [o1 s1|e1 s1|b1 s1] eqn:H1; [|eauto|elim (Hnever _ _ _ _ H1)].
  apply (execute_node_keeps_history_absent "extract_functions" node_extract_functions _ _ _ eq_refl
           extract_functions_keeps_history_absent Habsent) in H1.
  rewrite (run_loop_unconditional Nodes.engine code_review_graph 48
             "check_complexity" "detect_issues" s1)
    by (discriminate || reflexivity).
  destruct (execute_node Nodes.engine "check_complexity" s1)
    as [o2 s2|e2 s2|b2 s2] eqn:H2; [|eauto|elim (Hnever _ _ _ _ H2)].
  apply (execute_node_keeps_history_absent "check_complexity" node_check_complexity _ _ _ eq_refl
           check_complexity_keeps_history_absent H1) in H2.
  rewrite (run_loop_unconditional Nodes.engine code_review_graph 47
             "detect_issues" "suggest_improvements" s2)
    by (discriminate || reflexivity).
  destruct (execute_node Nodes.engine "detect_issues" s2)
    as [o3 s3|e3 s3|b3 s3] eqn:H3; [|eauto|elim (Hnever _ _ _ _ H3)].
  apply (execute_node_keeps_history_absent "detect_issues" node_detect_issues _ _ _ eq_refl
           detect_issues_keeps_history_absent H2) in H3.
  rewrite (run_loop_unconditional Nodes.engine code_review_graph 46
             "suggest_improvements" "quality_gate" s3)
    by (discriminate || reflexivity).
  destruct (execute_node Nodes.engine "suggest_improvements" s3)
    as [o4 s4|e4 s4|b4 s4] eqn:H4; [|eauto|elim (Hnever _ _ _ _ H4)].
  apply (execute_node_keeps_history_absent "suggest_improvements" node_suggest_improvements _ _ _ eq_refl
           suggest_improvements_keeps_history_absent H3) in H4.
  assert (Hgate : execute_node Nodes.engine "quality_gate" s4
                  = Raised (KeyError "history")
                      (history_append
                         (with_data (history_append s4 "Executing: quality_gate") (data s4))
                         "Error in quality_gate: 'history'")).
  { unfold execute_node.
    change (get "quality_gate" (registry Nodes.engine)) with (Some node_quality_gate).
    cbn [history_append data]. unfold node_quality_gate. rewrite H4. reflexivity. }
  rewrite (run_loop_raised Nodes.engine code_review_graph 45 "quality_gate" _ _ _
             ltac:(discriminate) Hgate).
  eauto.
Qed.

(** X18. On the preloaded graph, a run whose initial data has no
    ["history"] key never completes, whatever else the data holds: some
    step raises, at the latest [quality_gate] with [KeyError('history')],
    and the background task leaves the run [FAILED] with an error
    message. *)
Theorem code_review_needs_history (graphs : dict GraphDefinition) (run : WorkflowRun) :
  get (graph_id run) graphs = Some code_review_graph ->
  get "history" (data (state run)) = None ->
  status (run_task Nodes.engine graphs run) = FAILED
  /\ exists e state',
       run_workflow Nodes.engine code_review_graph (state run) = Raised e state'
       /\ error (run_task Nodes.engine graphs run) = Some (exn_str e).
Proof.
  intros Hgraph Habsent.
  destruct (code_review_raises_without_history (state run) Habsent) as (e & state' & Hrun).
  unfold run_task. rewrite Hgraph, Hrun. cbn [status error]. eauto.
Qed.

Lemma code_review_needs_history_witness :
  status (run_task Nodes.engine [("code-review-agent", code_review_graph)]
            (mkRun "run-1" "code-review-agent" PENDING
                   (mkState [("code", VInt 7); ("quality_score", VStr "high")] [])
                   None None))
  = FAILED.
Proof.
  apply (code_review_needs_history [("code-review-agent", code_review_graph)]
           (mkRun "run-1" "code-review-agent" PENDING
                  (mkState [("code", VInt 7); ("quality_score", VStr "high")] [])
                  None None) eq_refl eq_refl).
Defined.

(** The run of the preloaded graph once [extract_functions] has stored
    fewer than three lines, with [data["history"]] an empty list. *)
Lemma code_review_loop_few (code : string) (functions : list string) :
  List.length functions < 3 ->
  run_loop_log Nodes.engine code_review_graph 49 (Some "check_complexity")
    (mkState [("code", VStr code); ("history", VList []);
              ("functions", VList (map VStr functions))]
             ["Executing: extract_functions"])
  = (Returned tt
       (mkState
          [("code", VStr code);
           ("history", VList [VStr "Quality Gate: score=100"]);
           ("functions", VList (map VStr functions));
           ("complexity_score", VInt (2 * Z.of_nat (List.length functions)));
           ("issues", VList []);
           ("suggestions", VStr "Code looks good!");
           ("quality_score", VInt 100)]
          ["Executing: extract_functions"; "Executing: check_complexity";
           "Executing: detect_issues"; "Executing: suggest_improvements";
           "Executing: quality_gate"]),
     [("check_complexity", "next"); ("detect_issues", "next");
      ("suggest_improvements", "next"); ("quality_gate", "pass")]).
Proof.
  destruct functions as [|f1 [|f2 [|f3 rest]]]; simpl List.length; intro Hlen;
    try lia; vm_compute; reflexivity.
Qed.

(** X19. The preloaded graph is submitted with [history = []] and a
    [code] of which fewer than three lines contain ["def "]: no issue is
    detected, the quality score is set to 100 and [quality_gate] passes at
    its first visit. Five nodes are executed, each once, and the stored
    run ends [COMPLETED]. *)
Theorem code_review_few_functions (uuid4 code : string) :
  List.length (def_lines code) < 3 ->
  executions Nodes.engine code_review_graph
    (mkState [("code", VStr code); ("history", VList [])] [])
  = [("extract_functions", "next"); ("check_complexity", "next");
     ("detect_issues", "next"); ("suggest_improvements", "next"); ("quality_gate", "pass")]
  /\
  submit_and_run uuid4 [("code", VStr code); ("history", VList [])]
  = Some
      (mkRun uuid4 "code-review-agent" COMPLETED
         (mkState
            [("code", VStr code);
             ("history", VList [VStr "Quality Gate: score=100"]);
             ("functions", VList (map VStr (def_lines code)));
             ("complexity_score", VInt (2 * Z.of_nat (List.length (def_lines code))));
             ("issues", VList []);
             ("suggestions", VStr "Code looks good!");
             ("quality_score", VInt 100)]
            ["Executing: extract_functions"; "Executing: check_complexity";
             "Executing: detect_issues"; "Executing: suggest_improvements";
             "Executing: quality_gate"; "Workflow Completed."])
         None None).
Proof.
  intro Hfew.
  assert (Hexec :
    execute_node Nodes.engine "extract_functions"
      (mkState [("code", VStr code); ("history", VList [])] [])
    = Returned "next"
        (mkState [("code", VStr code); ("history", VList []);
                  ("functions", VList (map VStr (def_lines code)))]
                 ["Executing: extract_functions"])) by reflexivity.
  pose proof (run_loop_log_unconditional Nodes.engine code_review_graph 49
                "extract_functions" "check_complexity" "next" _ _
                ltac:(discriminate) ltac:(discriminate) Hexec eq_refl) as Hfirst.
  rewrite (code_review_loop_few code (def_lines code) Hfew) in Hfirst.
  cbn [fst snd] in Hfirst.
  destruct (run_workflow_of_log Nodes.engine code_review_graph _ _ _ Hfirst)
    as [Hrun Hlog].
  split; [exact Hlog|].
  rewrite submit_and_run_task.
  exact (f_equal Some
           (run_task_returned Nodes.engine [("code-review-agent", code_review_graph)]
              code_review_graph
              (mkRun uuid4 "code-review-agent" PENDING
                     (mkState [("code", VStr code); ("history", VList [])] []) None None)
              _ eq_refl Hrun)).
Qed.

Lemma code_review_few_functions_witness :
  List.length (def_lines "x = 1") < 3
  /\ exists run,
       submit_and_run "run-2" [("code", VStr "x = 1"); ("history", VList [])] = Some run
       /\ status run = COMPLETED
       /\ get "quality_score" (data (state run)) = Some (VInt 100).
Proof.
  assert (Hfew : List.length (def_lines "x = 1") < 3) by (vm_compute; lia).
  split; [exact Hfew|].
  eexists. split; [|split].
  - exact (proj2 (code_review_few_functions "run-2" "x = 1" Hfew)).
  - reflexivity.
  - reflexivity.
Defined.

(** The run of the preloaded graph from [detect_issues] on, with a
    complexity score above 5 and [data["history"]] an empty list. *)
Lemma code_review_loop_many (code : string) (functions : list value) (z : Z) :
  (z >? 5)%Z = true ->
  run_loop_log Nodes.engine code_review_graph 48 (Some "detect_issues")
    (mkState [("code", VStr code); ("history", VList []);
              ("functions", VList functions); ("complexity_score", VInt z)]
             ["Executing: extract_functions"; "Executing: check_complexity"])
  = (Returned tt
       (mkState
          [("code", VStr code);
           ("history", VList [VStr "Quality Gate: score=20"; VStr "Quality Gate: score=40";
                              VStr "Quality Gate: score=60"; VStr "Quality Gate: score=80"]);
           ("functions", VList functions);
           ("complexity_score", VInt z);
           ("issues", VList [VStr "Line 10: Too long"]);
           ("suggestions", VStr "Refactor logic to reduce complexity");
           ("quality_score", VInt 80)]
          ["Executing: extract_functions"; "Executing: check_complexity";
           "Executing: detect_issues"; "Executing: suggest_improvements";
           "Executing: quality_gate";
           "Executing: detect_issues"; "Executing: suggest_improvements";
           "Executing: quality_gate";
           "Executing: detect_issues"; "Executing: suggest_improvements";
           "Executing: quality_gate";
           "Executing: detect_issues"; "Executing: suggest_improvements";
           "Executing: quality_gate"]),
     [("detect_issues", "next"); ("suggest_improvements", "next"); ("quality_gate", "retry");
      ("detect_issues", "next"); ("suggest_improvements", "next"); ("quality_gate", "retry");
      ("detect_issues", "next"); ("suggest_improvements", "next"); ("quality_gate", "retry");
      ("detect_issues", "next"); ("suggest_improvements", "next"); ("quality_gate", "pass")]).
Proof.
  intro Hz.
  destruct z as [|p|p]; try (vm_compute in Hz; discriminate Hz).
  destruct p as [p|p|];
    [destruct p as [p|p|]; [destruct p as [p|p|] | destruct p as [p|p|] | ]
    |destruct p as [p|p|]; [destruct p as [p|p|] | destruct p as [p|p|] | ]
    | ];
    try (vm_compute in Hz; discriminate Hz); vm_compute; reflexivity.
Qed.

(** X20. The preloaded graph is submitted with [history = []] and a
    [code] of which at least three lines contain ["def "]: the linear
    chain is executed once and the cycle [detect_issues],
    [suggest_improvements], [quality_gate] four times in all, with
    [quality_gate] returning ["retry"] three times and then ["pass"] on
    the scores 20, 40, 60, 80; the step cap is not reached and the stored
    run ends [COMPLETED]. *)
Theorem code_review_many_functions (uuid4 code : string) :
  3 <= List.length (def_lines code) ->
  executions Nodes.engine code_review_graph
    (mkState [("code", VStr code); ("history", VList [])] [])
  = [("extract_functions", "next"); ("check_complexity", "next");
     ("detect_issues", "next"); ("suggest_improvements", "next"); ("quality_gate", "retry");
     ("detect_issues", "next"); ("suggest_improvements", "next"); ("quality_gate", "retry");
     ("detect_issues", "next"); ("suggest_improvements", "next"); ("quality_gate", "retry");
     ("detect_issues", "next"); ("suggest_improvements", "next"); ("quality_gate", "pass")]
  /\
  submit_and_run uuid4 [("code", VStr code); ("history", VList [])]
  = Some
      (mkRun uuid4 "code-review-agent" COMPLETED
         (mkState
            [("code", VStr code);
             ("history", VList [VStr "Quality Gate: score=20"; VStr "Quality Gate: score=40";
                                VStr "Quality Gate: score=60"; VStr "Quality Gate: score=80"]);
             ("functions", VList (map VStr (def_lines code)));
             ("complexity_score", VInt (Z.of_nat (List.length (def_lines code)) * 2));
             ("issues", VList [VStr "Line 10: Too long"]);
             ("suggestions", VStr "Refactor logic to reduce complexity");
             ("quality_score", VInt 80)]
            ["Executing: extract_functions"; "Executing: check_complexity";
             "Executing: detect_issues"; "Executing: suggest_improvements";
             "Executing: quality_gate";
             "Executing: detect_issues"; "Executing: suggest_improvements";
             "Executing: quality_gate";
             "Executing: detect_issues"; "Executing: suggest_improvements";
             "Executing: quality_gate";
             "Executing: detect_issues"; "Executing: suggest_improvements";
             "Executing: quality_gate";
             "Workflow Completed."])
         None None).
Proof.
  intro Hmany.
  assert (Hexec1 :
    execute_node Nodes.engine "extract_functions"
      (mkState [("code", VStr code); ("history", VList [])] [])
    = Returned "next"
        (mkState [("code", VStr code); ("history", VList []);
                  ("functions", VList (map VStr (def_lines code)))]
                 ["Executing: extract_functions"])) by reflexivity.
  assert (Hexec2 :
    execute_node Nodes.engine "check_complexity"
      (mkState [("code", VStr code); ("history", VList []);
                ("functions", VList (map VStr (def_lines code)))]
               ["Executing: extract_functions"])
    = Returned "next"
        (mkState [("code", VStr code); ("history", VList []);
                  ("functions", VList (map VStr (def_lines code)));
                  ("complexity_score",
                   VInt (Z.of_nat (List.length (map VStr (def_lines code))) * 2))]
                 ["Executing: extract_functions"; "Executing: check_complexity"]))
    by reflexivity.
  rewrite length_map in Hexec2.
  pose proof (run_loop_log_unconditional Nodes.engine code_review_graph 49
                "extract_functions" "check_complexity" "next" _ _
                ltac:(discriminate) ltac:(discriminate) Hexec1 eq_refl) as Hfirst.
  rewrite (run_loop_log_unconditional Nodes.engine code_review_graph 48
             "check_complexity" "detect_issues" "next" _ _
             ltac:(discriminate) ltac:(discriminate) Hexec2 eq_refl) in Hfirst.
  rewrite (code_review_loop_many code (map VStr (def_lines code))
             (Z.of_nat (List.length (def_lines code)) * 2))
    in Hfirst by (apply Z.gtb_lt; lia).
  cbn [fst snd] in Hfirst.
  destruct (run_workflow_of_log Nodes.engine code_review_graph _ _ _ Hfirst)
    as [Hrun Hlog].
  split; [exact Hlog|].
  rewrite submit_and_run_task.
  exact (f_equal Some
           (run_task_returned Nodes.engine [("code-review-agent", code_review_graph)]
              code_review_graph
              (mkRun uuid4 "code-review-agent" PENDING
                     (mkState [("code", VStr code); ("history", VList [])] []) None None)
              _ eq_refl Hrun)).
Qed.

Lemma code_review_many_functions_witness :
  3 <= List.length (def_lines "def a(): pass
def b(): pass
x = undefined
def c(): pass
def d(): pass")
  /\ exists run,
       submit_and_run "run-3" [("code", VStr "def a(): pass
def b(): pass
x = undefined
def c(): pass
def d(): pass"); ("history", VList [])] = Some run
       /\ status run = COMPLETED
       /\ get "complexity_score" (data (state run)) = Some (VInt 8).
Proof.
  assert (Hmany : 3 <= List.length (def_lines "def a(): pass
def b(): pass
x = undefined
def c(): pass
def d(): pass")) by (vm_compute; lia).
  split; [exact Hmany|].
  eexists. split; [|split].
  - exact (proj2 (code_review_many_functions "run-3" _ Hmany)).
  - reflexivity.
  - reflexivity.
Defined.



(** X22. For any working data whose [code] is a string (or absent),
    running [extract_functions], [check_complexity] and [detect_issues]
    in this order never raises and reports an issue exactly when at least
    three lines of [code] contain ["def "]. *)
Theorem issues_iff_three_functions (d : dict value) (code : string) :
  get_default "code" (VStr EmptyString) d = VStr code ->
  exists d1 d2 d3,
    node_extract_functions d = (d1, Returns VNone)
    /\ node_check_complexity d1 = (d2, Returns VNone)
    /\ node_detect_issues d2 = (d3, Returns VNone)
    /\ get "issues" d3
       = Some (VList (if 3 <=? List.length (def_lines code)
                      then [VStr "Line 10: Too long"] else []))%nat.
Proof.
  intro Hcode. unfold node_extract_functions. rewrite Hcode.
  eexists. eexists. eexists. split; [reflexivity|].
  unfold node_check_complexity, get_default. rewrite get_set_same. cbn [len].
  split; [reflexivity|].
  unfold node_detect_issues, get_default. rewrite get_set_same. cbn [as_int].
  split; [reflexivity|].
  rewrite get_set_same. rewrite length_map. fold (def_lines code).
  f_equal.
  destruct (Nat.leb_spec 3 (List.length (def_lines code)));
    destruct (Z.gtb_spec (Z.of_nat (List.length (def_lines code)) * 2) 5);
    try reflexivity; lia.
Qed.

Lemma issues_iff_three_functions_witness :
  exists d1 d2 d3,
    node_extract_functions [("code", VStr three_defs)] = (d1, Returns VNone)
    /\ node_check_complexity d1 = (d2, Returns VNone)
    /\ node_detect_issues d2 = (d3, Returns VNone)
    /\ get "issues" d3
       = Some (VList (if 3 <=? List.length (def_lines three_defs)
                      then [VStr "Line 10: Too long"] else []))%nat.
Proof.
  exact (issues_iff_three_functions [("code", VStr three_defs)] three_defs eq_refl).
Defined.

(** *** The preloaded graph and the list of tools *)

(** X23. [lifespan] always succeeds: it stores the preloaded graph under
    ["code-review-agent"], replacing a graph already stored under that id
    and keeping every other one; with the five registered steps a run of
    that graph is then always accepted, whatever the initial state. *)
Theorem preloaded_graph_is_runnable (graphs : dict GraphDefinition)
    (runs : dict WorkflowRun) (tasks : list string) (uuid4 : string)
    (initial_state : dict value) :
  exists graphs',
    lifespan graphs = inr graphs'
    /\ get "code-review-agent" graphs' = Some code_review_graph
    /\ (forall other, other <> "code-review-agent" -> get other graphs' = get other graphs)
    /\ exists a',
         run_graph (mkStores graphs' runs Nodes.tool_registry tasks) uuid4
                   (RunGraphRequest.mk "code-review-agent" initial_state)
         = inr (RunGraphResponse.mk uuid4 "Submitted", a').
Proof.
  unfold lifespan. rewrite default_graph_valid.
  eexists. split; [reflexivity|]. split; [apply get_set_same|]. split.
  - intros other Hne. apply get_set_other. unfold default_graph_id. congruence.
  - unfold run_graph. cbn [RunGraphRequest.graph_id graphs_db tool_registry].
    unfold default_graph_id. rewrite get_set_same, code_review_graph_registered.
    eexists. reflexivity.
Qed.

Lemma mem_keys {V : Type} (k : string) (d : dict V) :
  mem k d = true <-> In k (map fst d).
Proof.
  unfold mem. induction d as [|[k0 v0] d IH]; simpl.
  - split; [discriminate | intros []].
  - destruct (k0 =? k) eqn:Hk.
    + apply String.eqb_eq in Hk. split; auto.
    + apply String.eqb_neq in Hk. rewrite IH. split; [auto | intros [H|H]; congruence].
Qed.

(** X24. [run_graph] accepts a submission exactly when the graph id is
    stored and every node of that graph is among the names that
    [list_tools] returns. *)
Theorem run_graph_accepts_iff (a : stores) (uuid4 : string) (request : RunGraphRequest.t) :
  (exists response a', run_graph a uuid4 request = inr (response, a'))
  <-> (exists graph,
         get (RunGraphRequest.graph_id request) (graphs_db a) = Some graph
         /\ forall node, In node (nodes graph) -> In node (list_tools a)).
Proof.
  unfold run_graph, list_tools.
  destruct (get (RunGraphRequest.graph_id request) (graphs_db a)) as [graph|].
  - destruct (unregistered_nodes graph (tool_registry a)) as [|node rest] eqn:Hmissing.
    + split; [|eauto]. intros _. exists graph. split; [reflexivity|].
      intros node Hin. apply mem_keys.
      destruct (mem node (tool_registry a)) eqn:Hmem; [reflexivity|].
      assert (In node (unregistered_nodes graph (tool_registry a)))
        by (apply unregistered_nodes_In; split; [assumption | now apply mem_get]).
      rewrite Hmissing in H. contradiction.
    + split.
      * intros (response & a' & H). discriminate.
      * intros (graph' & Hgraph & Hall). inversion Hgraph. subst graph'.
        assert (Hin : In node (unregistered_nodes graph (tool_registry a)))
          by (rewrite Hmissing; now left).
        apply unregistered_nodes_In in Hin. destruct Hin as [Hin Hnone].
        apply Hall, mem_keys in Hin. apply mem_get in Hnone. congruence.
  - split.
    + intros (response & a' & H). discriminate.
    + intros (graph & H & _). discriminate.
Qed.
